(** * Syncify: availability intersection of the group scheduler

    A shallow embedding of the scheduling core of the Syncify Discord bot
    (utils/calendar.js: [checkTimeAgainstAvailability],
    [findGroupAvailability], [generateTimeSlots]; commands/group-schedule.js:
    [processDateRangeForm]) and the properties of its specification.

    Conventions of the embedding.
    - An absolute instant (a JS [Date], an ISO string, a valid moment) is its
      number of milliseconds since the Unix epoch, a [Z].
    - A moment that may be invalid is an [option Z]; comparisons with an
      invalid moment are [false], as in moment.js.
    - A calendar date ('YYYY-MM-DD') is its day number since 1970-01-01.
      Formatting a zoned moment with 'YYYY-MM-DD' and parsing that text back
      is the identity on the day number.
    - moment / moment-timezone is an external library: what the code uses of
      it is the interface [MomentTz]; [FixedOffsets] is an instance with
      fixed UTC offsets on which closed examples are evaluated. *)

From Stdlib Require Import Ascii String.
From stdpp Require Import base numbers list strings gmap sorting.

Local Open Scope Z_scope.

(** ** Time arithmetic *)

Definition MS_PER_MINUTE : Z := 60000.
Definition MS_PER_DAY : Z := 86400000.

(** [interval] of [generateTimeSlots]: 30-minute steps. *)
Definition interval : Z := 30.

(** Day number of a wall-clock reading (milliseconds since the local epoch). *)
Definition dayNumber (wall : Z) : Z := wall / MS_PER_DAY.

(** [moment#day()]: 0 is Sunday, 6 is Saturday; 1970-01-01 was a Thursday. *)
Definition dayOfWeek (day : Z) : Z := (day + 4) mod 7.

(** Wall-clock reading of [minutes] after midnight on day [day]. *)
Definition wallTime (day minutes : Z) : Z := day * MS_PER_DAY + minutes * MS_PER_MINUTE.

(** [a.isSameOrAfter(b)] and [a.isSameOrBefore(b)] on possibly invalid moments. *)
Definition isSameOrAfter (a b : option Z) : bool :=
  match a, b with
  | Some x, Some y => y <=? x
  | _, _ => false
  end.

Definition isSameOrBefore (a b : option Z) : bool :=
  match a, b with
  | Some x, Some y => x <=? y
  | _, _ => false
  end.

(** [a.isBefore(b)]. *)
Definition isBefore (a b : option Z) : bool :=
  match a, b with
  | Some x, Some y => x <? y
  | _, _ => false
  end.

(** ** The moment-timezone interface *)

Class MomentTz := {
  (** offset of a zone from UTC at an instant, in minutes (east positive) *)
  utcOffset : string -> Z -> Z;
  (** the instant at which the zone's wall clock shows the given reading *)
  wallClock : string -> Z -> Z;
  (** the 'h:mm A' part of a parse: minutes after midnight, [None] when the
      resulting moment is invalid *)
  parseClock : string -> option Z;
  (** a 'YYYY-MM-DD' parse: the day number, [None] when invalid *)
  parseDate : string -> option Z;
  (** the zone of the process, used by [moment(text)] without a zone *)
  serverZone : string
}.

(** ** Data model (rows of the calendars, users and meetings tables) *)

(** [availability.weekdays] / [availability.weekends]. A field that is
    [undefined] or [null] is [None]; [win_available] is the truthiness of
    [available]. *)
Record Window := {
  win_available : bool;
  win_start : option string;
  win_end : option string
}.

Record Availability := {
  weekdays : option Window;
  weekends : option Window
}.

Record User := {
  user_id : string;
  timezone : option string
}.

Record Calendar := {
  cal_id : Z;
  cal_users : User;
  cal_availability : option Availability
}.

Record Meeting := {
  calendar_id : Z;
  start_time : Z;
  end_time : Z;
  status : string
}.

(** A generated slot; [start] and [end] are ISO strings of instants. The
    display-only [formatted] part is left out. *)
Record Slot := {
  slot_start : Z;
  slot_end : Z
}.

(** JS truthiness of a string-valued field: present and not empty. *)
Definition truthy (field : option string) : option string :=
  match field with
  | Some s => if decide (s = "") then None else Some s
  | None => None
  end.

(** A supabase response [{data, error}]. *)
Inductive Response (A : Type) : Type :=
  | Rows (data : A)
  | Failed.
Arguments Rows {A} data.
Arguments Failed {A}.

(** How a call of the engine ends: it returns, it throws, or the model ran
    out of fuel (which [generateTimeSlots_total] rules out). *)
Inductive Outcome (A : Type) : Type :=
  | Returned (value : A)
  | Threw
  | OutOfFuel.
Arguments Returned {A} value.
Arguments Threw {A}.
Arguments OutOfFuel {A}.

Section Calendar.
Context `{M : MomentTz}.

(** Wall-clock reading of [moment(t).tz(zone)]. *)
Definition localWall (zone : string) (t : Z) : Z := t + utcOffset zone t * MS_PER_MINUTE.

(** [moment(t).tz(zone).format('YYYY-MM-DD')], as a day number. *)
Definition localDate (zone : string) (t : Z) : Z := dayNumber (localWall zone t).

(** [moment(t).tz(zone).day()]. *)
Definition localDay (zone : string) (t : Z) : Z := dayOfWeek (localDate zone t).

Definition isWeekendDay (d : Z) : bool := (d =? 0) || (d =? 6).

(** [moment.tz(`${date} ${clock}`, 'YYYY-MM-DD h:mm A', zone)]. *)
Definition momentTzParse (date : Z) (clock : string) (zone : string) : option Z :=
  match parseClock clock with
  | Some minutes => Some (wallClock zone (wallTime date minutes))
  | None => None
  end.

(** The window the evaluator selects for an instant: weekends for a local
    Saturday or Sunday, weekdays otherwise. *)
Definition windowFor (availability : Availability) (zone : string) (t : Z) : option Window :=
  if isWeekendDay (localDay zone t) then weekends availability else weekdays availability.

Definition windowAvailable (w : option Window) : bool :=
  match w with
  | Some s => win_available s
  | None => false
  end.

(** [checkTimeAgainstAvailability(startTime, endTime, availability, timezone)] *)
Definition checkTimeAgainstAvailability
    (startTime endTime : Z) (availability : option Availability)
    (timezone : option string) : bool :=
  match availability, truthy timezone with
  | Some avail, Some zone =>
      let isWeekend := isWeekendDay (localDay zone startTime) in
      let availSettings := if isWeekend then weekends avail else weekdays avail in
      if isWeekend && negb (windowAvailable availSettings) then false
      else
        match availSettings with
        | None => false
        | Some w =>
            match truthy (win_start w), truthy (win_end w) with
            | Some s, Some e =>
                let availStart := momentTzParse (localDate zone startTime) s zone in
                let availEnd := momentTzParse (localDate zone startTime) e zone in
                isSameOrAfter (Some startTime) availStart
                && isSameOrBefore (Some endTime) availEnd
            | _, _ => false
            end
        end
  | _, _ => false
  end.

(** *** Conflict test

    The callback of [userMeetings.some(...)] in [findGroupAvailability]:
    overlap, same start time, or same end time. *)
Definition meetingConflict (slot : Slot) (meeting : Meeting) : bool :=
  let meetingStart := start_time meeting in
  let meetingEnd := end_time meeting in
  let slotStart := slot_start slot in
  let slotEnd := slot_end slot in
  ((slotStart <? meetingEnd) && (meetingStart <? slotEnd))
  || (slotStart =? meetingStart)
  || (slotEnd =? meetingEnd).

(** [userMeetings.some(meeting => ...)] *)
Definition hasConflict (slot : Slot) (userMeetings : list Meeting) : bool :=
  existsb (meetingConflict slot) userMeetings.

(** *** Slot generation *)

(** The inner [while] of [generateTimeSlots]. The loop test first advances
    [slotStart] by [interval] minutes (moment's [add] mutates) and then
    compares it with [dayEnd]. [None] when [fuel] runs out. *)
Fixpoint slotLoop (fuel : nat) (dayEnd duration slotStart : Z) : option (list Slot) :=
  match fuel with
  | O => None
  | S fuel' =>
      let slotStart := slotStart + interval * MS_PER_MINUTE in
      if slotStart <=? dayEnd then
        let slotEnd := slotStart + duration * MS_PER_MINUTE in
        match slotLoop fuel' dayEnd duration slotStart with
        | Some rest =>
            Some (if slotEnd <=? dayEnd
                  then {| slot_start := slotStart; slot_end := slotEnd |} :: rest
                  else rest)
        | None => None
        end
      else Some []
  end.

(** Number of loop tests the inner loop needs between [dayStart] and [dayEnd]. *)
Definition slotFuel (dayStart dayEnd : Z) : nat :=
  S (Z.to_nat ((dayEnd - dayStart) / (interval * MS_PER_MINUTE))).

(** 9 AM and 5 PM on day [day] of the process's zone. *)
Definition dayStartOf (day : Z) : Z := wallClock serverZone (wallTime day (9 * 60)).
Definition dayEndOf (day : Z) : Z := wallClock serverZone (wallTime day (17 * 60)).

(** The slots of one day: one pass of the outer loop body. *)
Definition daySlots (day duration : Z) : option (list Slot) :=
  slotLoop (slotFuel (dayStartOf day) (dayEndOf day)) (dayEndOf day) duration (dayStartOf day).

(** The outer [while]: [start] is always a local midnight, kept as its day
    number; [start.isSameOrBefore(end)] with [end] the end of day [endDate]
    is [start <= endDate]. *)
Fixpoint dayLoop (fuel : nat) (start endDate duration : Z) : option (list Slot) :=
  match fuel with
  | O => None
  | S fuel' =>
      if start <=? endDate then
        match daySlots start duration, dayLoop fuel' (start + 1) endDate duration with
        | Some today, Some later => Some (today ++ later)
        | _, _ => None
        end
      else Some []
  end.

(** [generateTimeSlots(startDate, endDate, duration)] *)
Definition generateTimeSlots (startDate endDate duration : Z) : option (list Slot) :=
  dayLoop (S (Z.to_nat (endDate - startDate + 1))) startDate endDate duration.

(** *** The store *)

(** The two tables the engine reads, and whether each select succeeds. *)
Record Supabase := {
  calendars_table : list Calendar;
  meetings_table : list Meeting;
  calendars_select_ok : bool;
  meetings_select_ok : bool
}.

(** The select on calendars, inner-joined with users and restricted by
    [.in('users.user_id', userIds)]: the calendars of the requested users. *)
Definition selectCalendars (db : Supabase) (userIds : list string) : Response (list Calendar) :=
  if calendars_select_ok db
  then Rows (List.filter (fun cal => bool_decide (user_id (cal_users cal) ∈ userIds))
                         (calendars_table db))
  else Failed.

(** The select on meetings with [.in('calendar_id', calendarIds)],
    [.gte('end_time', `${startDate}T00:00:00Z`)],
    [.lte('start_time', `${endDate}T23:59:59Z`)] and
    [.eq('status', 'confirmed')]. *)
Definition selectMeetings (db : Supabase) (calendarIds : list Z) (startDate endDate : Z)
    : Response (list Meeting) :=
  if meetings_select_ok db
  then Rows (List.filter
               (fun m => bool_decide (calendar_id m ∈ calendarIds)
                         && (startDate * MS_PER_DAY <=? end_time m)
                         && (start_time m <=? endDate * MS_PER_DAY + 86399000)
                         && bool_decide (status m = "confirmed"))
               (meetings_table db))
  else Failed.

(** *** The group engine *)

(** Entries of [availabilityByUser]. *)
Record UserAvail := {
  ua_timezone : option string;
  ua_availability : option Availability
}.

(** [meetingsByUser] after the first [calendars.forEach]. *)
Definition meetingsByUser (calendars : list Calendar) (meetings : list Meeting)
    : gmap string (list Meeting) :=
  foldl (fun acc cal =>
           <[user_id (cal_users cal) :=
               List.filter (fun m => calendar_id m =? cal_id cal) meetings]> acc)
        ∅ calendars.

(** [availabilityByUser] after the second [calendars.forEach]. *)
Definition availabilityByUser (calendars : list Calendar) : gmap string UserAvail :=
  foldl (fun acc cal =>
           <[user_id (cal_users cal) :=
               {| ua_timezone := timezone (cal_users cal);
                  ua_availability := cal_availability cal |}]> acc)
        ∅ calendars.

(** The callback of [userIds.every(...)] for one slot, given the two objects
    [availabilityByUser] and [meetingsByUser]. *)
Definition ownerFree (availabilities : gmap string UserAvail)
    (bookings : gmap string (list Meeting)) (slot : Slot) (userId : string) : bool :=
  match availabilities !! userId with
  | None => false
  | Some userAvail =>
      let isWithinAvailability :=
        checkTimeAgainstAvailability (slot_start slot) (slot_end slot)
          (ua_availability userAvail) (ua_timezone userAvail) in
      if negb isWithinAvailability then false
      else
        let userMeetings := default [] (bookings !! userId) in
        negb (hasConflict slot userMeetings)
  end.

(** [findGroupAvailability(userIds, startDate, endDate, duration)].
    The second select is destructured as [{ data: meetings, meetingsError }];
    a response has no such property, so the check of [meetingsError] never
    fires and a failed select leaves [meetings] null: the first
    [meetings.filter] throws. *)
Definition findGroupAvailability (db : Supabase) (userIds : list string)
    (startDate endDate duration : Z) : Outcome (list Slot) :=
  match selectCalendars db userIds with
  | Failed => Returned []
  | Rows calendars =>
      if decide (calendars = []) then Returned []
      else
        let calendarIds := map cal_id calendars in
        match selectMeetings db calendarIds startDate endDate with
        | Failed => Threw
        | Rows meetings =>
            let byUser := meetingsByUser calendars meetings in
            let availability := availabilityByUser calendars in
            match generateTimeSlots startDate endDate duration with
            | None => OutOfFuel
            | Some timeSlots =>
                Returned
                  (List.filter
                     (fun slot => forallb (ownerFree availability byUser slot) userIds)
                     timeSlots)
            end
        end
  end.

End Calendar.

(** ** The date-range form of the group scheduler (commands/group-schedule.js) *)

(** Entries of [global.pendingGroupSessions]. *)
Record GroupSession := {
  gs_title : string;
  gs_duration : Z;
  gs_participants : list string;
  gs_startDate : option Z;
  gs_endDate : option Z
}.

(** What [processDateRangeForm] replies to the submitted form. *)
Inductive Reply : Type :=
  | InvalidDateFormat   (* 'Invalid date format. Please use YYYY-MM-DD.' *)
  | EndBeforeStart      (* 'End date must be after start date.' *)
  | SessionExpired      (* 'Your session has expired. ...' *)
  | AvailableTimes (startDate endDate : Z).

Section GroupSchedule.
Context `{M : MomentTz}.

(** [processDateRangeForm(interaction)]: the submitted texts, the submitting
    user and the pending sessions in; the reply and the pending sessions out.
    Both dates are local midnights, so [endDate.isBefore(startDate)] compares
    day numbers. *)
Definition processDateRangeForm (pending : gmap string GroupSession)
    (user startDateStr endDateStr : string) : Reply * gmap string GroupSession :=
  match parseDate startDateStr, parseDate endDateStr with
  | Some startDate, Some endDate =>
      if isBefore (Some endDate) (Some startDate) then (EndBeforeStart, pending)
      else
        match pending !! user with
        | None => (SessionExpired, pending)
        | Some sessionData =>
            (AvailableTimes startDate endDate,
             <[user := {| gs_title := gs_title sessionData;
                          gs_duration := gs_duration sessionData;
                          gs_participants := gs_participants sessionData;
                          gs_startDate := Some startDate;
                          gs_endDate := Some endDate |}]> pending)
        end
  | _, _ => (InvalidDateFormat, pending)
  end.

End GroupSchedule.

(** ** A fixed-offset instance of the moment interface *)

Module Fixed.

(** Value of a decimal digit. *)
Definition digit (c : ascii) : option Z :=
  let n := Z.of_nat (nat_of_ascii c) in
  if (48 <=? n) && (n <=? 57) then Some (n - 48) else None.

Fixpoint digits (acc : Z) (s : string) : option Z :=
  match s with
  | EmptyString => Some acc
  | String c rest =>
      match digit c with
      | Some d => digits (10 * acc + d) rest
      | None => None
      end
  end.

(** A non-empty decimal numeral of at most [width] digits. *)
Definition numeral (width : nat) (s : string) : option Z :=
  if decide (s = "") then None
  else if decide (String.length s ≤ width)%nat then digits 0 s
  else None.

(** Split at the first occurrence of [sep]. *)
Fixpoint splitAt (sep : ascii) (s : string) : option (string * string) :=
  match s with
  | EmptyString => None
  | String c rest =>
      if decide (c = sep) then Some (EmptyString, rest)
      else
        match splitAt sep rest with
        | Some (before, after) => Some (String c before, after)
        | None => None
        end
  end.

(** 'h:mm A': hour 1 to 12, minute 0 to 59, AM or PM. *)
Definition parseClock (s : string) : option Z :=
  match splitAt ":" s with
  | Some (h, rest) =>
      match splitAt " " rest with
      | Some (mm, meridiem) =>
          match numeral 2 h, numeral 2 mm with
          | Some hour, Some minute =>
              if (1 <=? hour) && (hour <=? 12) && (minute <=? 59) then
                if decide (meridiem = "AM") then Some ((hour mod 12) * 60 + minute)
                else if decide (meridiem = "PM") then Some ((hour mod 12 + 12) * 60 + minute)
                else None
              else None
          | _, _ => None
          end
      | None => None
      end
  | None => None
  end.

Definition leapYear (y : Z) : bool :=
  (y mod 4 =? 0) && (negb (y mod 100 =? 0) || (y mod 400 =? 0)).

Definition daysInMonth (y m : Z) : Z :=
  if m =? 2 then (if leapYear y then 29 else 28)
  else if (m =? 4) || (m =? 6) || (m =? 9) || (m =? 11) then 30
  else 31.

(** Day number of a civil date of the proleptic Gregorian calendar. *)
Definition daysFromCivil (y m d : Z) : Z :=
  let y' := if m <=? 2 then y - 1 else y in
  let era := y' / 400 in
  let yoe := y' - era * 400 in
  let doy := (153 * (if 2 <? m then m - 3 else m + 9) + 2) / 5 + d - 1 in
  let doe := yoe * 365 + yoe / 4 - yoe / 100 + doy in
  era * 146097 + doe - 719468.

(** 'YYYY-MM-DD' *)
Definition parseDate (s : string) : option Z :=
  match splitAt "-" s with
  | Some (yyyy, rest) =>
      match splitAt "-" rest with
      | Some (mm, dd) =>
          match numeral 4 yyyy, numeral 2 mm, numeral 2 dd with
          | Some y, Some m, Some d =>
              if (1 <=? m) && (m <=? 12) && (1 <=? d) && (d <=? daysInMonth y m)
              then Some (daysFromCivil y m d)
              else None
          | _, _, _ => None
          end
      | None => None
      end
  | None => None
  end.

(** Offsets in minutes (standard time, no daylight saving). *)
Definition offsetOf (zone : string) : Z :=
  if decide (zone = "America/New_York") then -300
  else if decide (zone = "America/Los_Angeles") then -480
  else if decide (zone = "Asia/Tokyo") then 540
  else 0.

End Fixed.

(** Zones with a fixed offset; the process runs in UTC. *)
Definition FixedOffsets : MomentTz := {|
  utcOffset := fun zone _ => Fixed.offsetOf zone;
  wallClock := fun zone wall => wall - Fixed.offsetOf zone * MS_PER_MINUTE;
  parseClock := Fixed.parseClock;
  parseDate := Fixed.parseDate;
  serverZone := "UTC"
|}.

(** ** The same zones with moment's forgiving reading of a clock text

    The calls of [moment.tz] in the source pass no strict flag. moment then
    walks the tokens of 'h:mm A' ('h', ':', 'mm', ' ', 'A') over the text:
    each token takes its first match in what is left of the text, the text
    before the match is skipped, and a token without a match is left out.
    An hour or a minute that was not found is 0; the moment is invalid only
    when the hour or the minute found is out of range. *)

Module Forgiving.

(** Tokens 'h' and 'mm': the first one or two adjacent digits and the text
    behind them; without a digit nothing is consumed. *)
Fixpoint number (s : string) : option Z * string :=
  match s with
  | EmptyString => (None, EmptyString)
  | String c rest =>
      match Fixed.digit c with
      | Some d =>
          match rest with
          | String c' rest' =>
              match Fixed.digit c' with
              | Some d' => (Some (10 * d + d'), rest')
              | None => (Some d, rest)
              end
          | EmptyString => (Some d, rest)
          end
      | None =>
          match number rest with
          | (Some n, after) => (Some n, after)
          | (None, _) => (None, s)
          end
      end
  end.

(** Tokens ':' and ' ': the text behind the first occurrence, if there is one. *)
Definition literal (sep : ascii) (s : string) : string :=
  match Fixed.splitAt sep s with
  | Some (_, after) => after
  | None => s
  end.

(** Token 'A': the first letter a or p of either case; [Some true] is PM
    ([isPM] looks at the first letter of the match). *)
Fixpoint meridiem (s : string) : option bool :=
  match s with
  | EmptyString => None
  | String c rest =>
      if bool_decide (c = "p"%char) || bool_decide (c = "P"%char) then Some true
      else if bool_decide (c = "a"%char) || bool_decide (c = "A"%char) then Some false
      else meridiem rest
  end.

(** [meridiemFixWrap]: an hour that was found is moved by the meridiem. *)
Definition meridiemFixWrap (hour : option Z) (isPm : option bool) : option Z :=
  match hour, isPm with
  | Some h, Some true => Some (if h <? 12 then h + 12 else h)
  | Some h, Some false => Some (if h =? 12 then 0 else h)
  | _, _ => hour
  end.

(** Minute of the day read from the text; hour 24 with minute 0 is the
    midnight that ends the day, any other hour above 23 and any minute above
    59 overflow and make the moment invalid. *)
Definition parseClock (s : string) : option Z :=
  let '(h, afterHour) := number s in
  let '(mm, afterMinute) := number (literal ":" afterHour) in
  let hour := default 0 (meridiemFixWrap h (meridiem (literal " " afterMinute))) in
  let minute := default 0 mm in
  if ((hour <=? 23) && (minute <=? 59)) || ((hour =? 24) && (minute =? 0))
  then Some (hour * 60 + minute)
  else None.

End Forgiving.

(** Fixed offsets, the process in UTC, clock texts read the forgiving way. *)
Definition ForgivingOffsets : MomentTz := {|
  utcOffset := fun zone _ => Fixed.offsetOf zone;
  wallClock := fun zone wall => wall - Fixed.offsetOf zone * MS_PER_MINUTE;
  parseClock := Forgiving.parseClock;
  parseDate := Fixed.parseDate;
  serverZone := "UTC"
|}.

(** ** The single-calendar check (utils/calendar.js) *)

(** [getCalendar(calendarId)]: the select with [.eq('id', calendarId)] and
    [.single()], which fails unless exactly one row matches; on an error the
    function returns null. *)
Definition getCalendar (db : Supabase) (calendarId : Z) : option Calendar :=
  if calendars_select_ok db then
    match List.filter (fun cal => cal_id cal =? calendarId) (calendars_table db) with
    | [calendar] => Some calendar
    | _ => None
    end
  else None.

(** The rows counted by [isTimeSlotAvailable]: [.eq('calendar_id', calendarId)],
    [.eq('status', 'confirmed')] and
    [.or(`start_time.lte.${endTime},end_time.gte.${startTime}`)]. *)
Definition countedMeeting (calendarId startTime endTime : Z) (m : Meeting) : bool :=
  (calendar_id m =? calendarId)
  && bool_decide (status m = "confirmed")
  && ((start_time m <=? endTime) || (startTime <=? end_time m)).

Section SingleCalendar.
Context `{M : MomentTz}.

(** [isTimeSlotAvailable(calendarId, startTime, endTime)] *)
Definition isTimeSlotAvailable (db : Supabase) (calendarId startTime endTime : Z) : bool :=
  match getCalendar db calendarId with
  | None => false
  | Some calendar =>
      let isWithinAvailability :=
        checkTimeAgainstAvailability startTime endTime
          (cal_availability calendar) (timezone (cal_users calendar)) in
      if negb isWithinAvailability then false
      else if meetings_select_ok db then
        let count :=
          length (List.filter (countedMeeting calendarId startTime endTime)
                              (meetings_table db)) in
        bool_decide (count = 0%nat)
      else false
  end.

End SingleCalendar.

(** ** Scheduling one meeting (commands/schedule.js, utils/database.js) *)

(** [createMeeting(calendarId, title, startTime, endTime, description)]: the
    insert of a confirmed row; [None] when the insert fails and the function
    throws. Title and description are left out. *)
Definition createMeeting (db : Supabase) (insert_ok : bool)
    (calendarId startTime endTime : Z) : option Supabase :=
  if insert_ok then
    Some {| calendars_table := calendars_table db;
            meetings_table :=
              {| calendar_id := calendarId; start_time := startTime;
                 end_time := endTime; status := "confirmed" |} :: meetings_table db;
            calendars_select_ok := calendars_select_ok db;
            meetings_select_ok := meetings_select_ok db |}
  else None.

(** Entries of [global.pendingMeetings]; title and description are left out. *)
Record MeetingData := {
  md_calendarId : Z;
  md_startTime : option Z;
  md_endTime : option Z
}.

(** What [processMeetingDetailsForm] replies. *)
Inductive MeetingReply : Type :=
  | MeetingFormError        (* 'There was an error processing your meeting details. ...' *)
  | MeetingSessionExpired   (* 'Your session has expired. ...' *)
  | InvalidDateTime         (* 'Invalid date or time format. ...' *)
  | InvalidDuration         (* 'Invalid duration. ...' *)
  | ConfirmMeeting (startTime endTime duration : Z)
  | ConfirmMeetingNoEnd (startTime duration : Z).
      (* the 'Confirm Meeting' embed of an end that is no valid date *)

(** The instants a JS [Date] holds: at most 8.64e15 milliseconds from the
    epoch; [setTime] beyond that leaves an invalid date. *)
Definition MAX_DATE_MS : Z := 8640000000000000.

Definition validDate (t : Z) : bool := (- MAX_DATE_MS <=? t) && (t <=? MAX_DATE_MS).

(** [moment(m).add(minutes, 'minutes')] on a valid moment [m]; [None] is the
    invalid moment, whose [toISOString()] is null. The sum is exact in JS
    numbers below 2^53, hence for every end inside the range of [Date] when
    the start is of a year from 0 on, as 'YYYY' reads. *)
Definition addMinutes (m minutes : Z) : option Z :=
  let t := m + minutes * MS_PER_MINUTE in
  if validDate t then Some t else None.

Section Schedule.
Context `{M : MomentTz}.

(** [parseInt(text, 10)] of the JS runtime; [None] is NaN. *)
Variable parseInt10 : string -> option Z.

(** [moment.tz(`${dateStr} ${startTimeStr}`, 'YYYY-MM-DD h:mm A', timezone)] *)
Definition momentTzParseText (dateStr clock zone : string) : option Z :=
  match parseDate dateStr with
  | Some date => momentTzParse date clock zone
  | None => None
  end.

(** [processMeetingDetailsForm(interaction)]: the pending meetings, the row of
    the submitting user ([getUser]), the user's id and the submitted texts in;
    the reply and the pending meetings out. Without a user row
    [user.timezone] throws and the outer handler replies. Only the start is
    tested with [isValid()]: an end that left the range of [Date] is still
    confirmed, and stored as the null its [toISOString()] gives. *)
Definition processMeetingDetailsForm (pendingMeetings : gmap string MeetingData)
    (user : option User) (userId dateStr startTimeStr durationStr : string)
    : MeetingReply * gmap string MeetingData :=
  match user with
  | None => (MeetingFormError, pendingMeetings)
  | Some row =>
      let timezone := default "UTC" (truthy (timezone row)) in
      match pendingMeetings !! userId with
      | None => (MeetingSessionExpired, pendingMeetings)
      | Some meetingData =>
          match momentTzParseText dateStr startTimeStr timezone with
          | None => (InvalidDateTime, pendingMeetings)
          | Some startDateTime =>
              match parseInt10 durationStr with
              | None => (InvalidDuration, pendingMeetings)
              | Some duration =>
                  if duration <=? 0 then (InvalidDuration, pendingMeetings)
                  else
                    let endDateTime := addMinutes startDateTime duration in
                    (match endDateTime with
                     | Some endTime => ConfirmMeeting startDateTime endTime duration
                     | None => ConfirmMeetingNoEnd startDateTime duration
                     end,
                     <[userId := {| md_calendarId := md_calendarId meetingData;
                                    md_startTime := Some startDateTime;
                                    md_endTime := endDateTime |}]> pendingMeetings)
              end
          end
      end
  end.

(** The collector of the confirmation buttons, for the form reply
    [ConfirmMeeting startTime endTime _] on calendar [calendarId]:
    'confirm_meeting' creates the meeting and forgets the pending entry
    (a failed insert is caught and leaves both as they are),
    'cancel_meeting' only forgets the entry. After the reply
    [ConfirmMeetingNoEnd] the stored end is null, which the column
    [end_time ... NOT NULL] of supabase-schema.sql refuses: that is the case
    [insert_ok = false]. *)
Definition collectMeetingButton (confirm insert_ok : bool) (db : Supabase)
    (pendingMeetings : gmap string MeetingData) (userId : string)
    (calendarId startTime endTime : Z) : Supabase * gmap string MeetingData :=
  if confirm then
    match createMeeting db insert_ok calendarId startTime endTime with
    | Some db' => (db', delete userId pendingMeetings)
    | None => (db, pendingMeetings)
    end
  else (db, delete userId pendingMeetings).

End Schedule.

(** ** Listing the upcoming meetings (commands/meetings.js) *)

(** A calendar row as the listing reads it. *)
Record UserCalendar := {
  uc_id : Z;
  uc_name : string
}.

(** An element of [allMeetings]: [{...meeting, calendarName}]. *)
Record ListedMeeting := {
  lm_meeting : Meeting;
  lm_calendarName : string
}.

Definition lm_start (x : ListedMeeting) : Z := start_time (lm_meeting x).

(** What [listMeetings] puts into its reply. [UpcomingMeetings shown total
    note]: the meetings given a field each, the number announced in the
    description, and whether the 'Showing 10 of ...' note is added. *)
Inductive ListReply : Type :=
  | NoCalendarNamed
  | NoUpcomingMeetings
  | UpcomingMeetings (shown : list ListedMeeting) (total : nat) (note : bool)
  | ListError.

(** [Array.prototype.sort] with the comparator
    [(a, b) => new Date(a.start_time) - new Date(b.start_time)]: a stable
    sort, here by insertion from the right. *)
Fixpoint insertByStart (x : ListedMeeting) (l : list ListedMeeting) : list ListedMeeting :=
  match l with
  | [] => [x]
  | y :: rest => if lm_start x <=? lm_start y then x :: l else y :: insertByStart x rest
  end.

Definition sortByStart (l : list ListedMeeting) : list ListedMeeting :=
  foldr insertByStart [] l.

Section Meetings.

(** [String.prototype.toLowerCase] of the JS runtime. *)
Variable toLowerCase : string -> string.

(** [getCalendarMeetings(calendarId)] of utils/database.js: the rows of the
    calendar, [None] when the select fails and the function throws. *)
Variable getCalendarMeetings : Z -> option (list Meeting).

(** The loop that fills [allMeetings]; a throw ends the listing. *)
Fixpoint collectMeetings (calendars : list UserCalendar) : option (list ListedMeeting) :=
  match calendars with
  | [] => Some []
  | calendar :: rest =>
      match getCalendarMeetings (uc_id calendar), collectMeetings rest with
      | Some meetings, Some more =>
          Some (map (fun meeting => {| lm_meeting := meeting;
                                       lm_calendarName := uc_name calendar |}) meetings
                ++ more)
      | _, _ => None
      end
  end.

(** [listMeetings(interaction, user, calendars, calendarOption)] at the
    instant [now]. *)
Definition listMeetings (calendars : list UserCalendar) (calendarOption : option string)
    (now : Z) : ListReply :=
  let filteredCalendars :=
    match truthy calendarOption with
    | Some name =>
        List.filter
          (fun cal => bool_decide (toLowerCase (uc_name cal) = toLowerCase name))
          calendars
    | None => calendars
    end in
  if bool_decide (is_Some (truthy calendarOption)) && bool_decide (filteredCalendars = [])
  then NoCalendarNamed
  else
    match collectMeetings filteredCalendars with
    | None => ListError
    | Some allMeetings =>
        let upcomingMeetings :=
          sortByStart (List.filter (fun meeting => now <=? lm_start meeting) allMeetings) in
        if bool_decide (upcomingMeetings = []) then NoUpcomingMeetings
        else UpcomingMeetings (take 10 upcomingMeetings)
                              (length upcomingMeetings)
                              (bool_decide (10 < length upcomingMeetings)%nat)
    end.

End Meetings.

(** ** Reminders (utils/reminders.js) *)

(** A row of the meetings table as the reminder job reads it: its id, its
    [reminder_sent] flag and the user joined through its calendar (null when
    the join finds none). *)
Record ReminderRow := {
  rm_id : Z;
  rm_meeting : Meeting;
  rm_reminder_sent : bool;
  rm_owner : option User
}.

(** The rows the job selects at [now]: confirmed, no reminder sent, starting
    at or after [now] and before [now] plus 30 minutes. *)
Definition dueForReminder (now : Z) (row : ReminderRow) : bool :=
  bool_decide (status (rm_meeting row) = "confirmed")
  && negb (rm_reminder_sent row)
  && (now <=? start_time (rm_meeting row))
  && (start_time (rm_meeting row) <? now + 30 * 60 * 1000).

(** [update({ reminder_sent: true }).eq('id', id)] *)
Definition markSent (id : Z) (table : list ReminderRow) : list ReminderRow :=
  map (fun row =>
         if rm_id row =? id
         then {| rm_id := rm_id row; rm_meeting := rm_meeting row;
                 rm_reminder_sent := true; rm_owner := rm_owner row |}
         else row)
      table.

Section Reminders.

(** Whether the direct message to a user goes through ([client.users.fetch]
    and [user.send]), and whether the update of a meeting's flag is applied
    (its result is not inspected by the job). *)
Variable dm_ok : string -> bool.
Variable update_ok : Z -> bool.

(** The [for] loop over the selected meetings: the messages delivered so
    far (user id and meeting id) and the table. A meeting without a joined
    user throws inside the loop body and is skipped; a failed message skips
    the update. *)
Fixpoint remindAll (meetings : list ReminderRow)
    (sent : list (string * Z)) (table : list ReminderRow)
    : list (string * Z) * list ReminderRow :=
  match meetings with
  | [] => (sent, table)
  | meeting :: rest =>
      match rm_owner meeting with
      | None => remindAll rest sent table
      | Some owner =>
          let userId := user_id owner in
          if dm_ok userId then
            remindAll rest (sent ++ [(userId, rm_id meeting)])
              (if update_ok (rm_id meeting) then markSent (rm_id meeting) table else table)
          else remindAll rest sent table
      end
  end.

(** [checkUpcomingMeetings(client)] at the instant [now]; a failed select
    returns at once. *)
Definition checkUpcomingMeetings (select_ok : bool) (now : Z) (table : list ReminderRow)
    : list (string * Z) * list ReminderRow :=
  if select_ok then remindAll (List.filter (dueForReminder now) table) [] table
  else ([], table).

End Reminders.

(** One run of the job per minute: each tick has its instant and its own
    outcomes of the select and of the messages; every update is applied. *)
Record Tick := {
  tick_now : Z;
  tick_select_ok : bool;
  tick_dm_ok : string -> bool
}.

Fixpoint runTicks (ticks : list Tick) (table : list ReminderRow)
    : list (string * Z) * list ReminderRow :=
  match ticks with
  | [] => ([], table)
  | tick :: rest =>
      let '(sent, table') :=
        checkUpcomingMeetings (tick_dm_ok tick) (fun _ => true)
          (tick_select_ok tick) (tick_now tick) table in
      let '(later, table'') := runTicks rest table' in
      (sent ++ later, table'')
  end.

(** A [parseInt(text, 10)] for the closed examples: leading blanks, an
    optional sign, then the longest run of decimal digits; NaN without a
    digit. *)
Module FixedJs.

Fixpoint skipBlanks (s : string) : string :=
  match s with
  | String c rest => if decide (c = " "%char) then skipBlanks rest else s
  | EmptyString => s
  end.

Fixpoint leadingDigits (acc : option Z) (s : string) : option Z :=
  match s with
  | String c rest =>
      match Fixed.digit c with
      | Some d => leadingDigits (Some (10 * default 0 acc + d)) rest
      | None => acc
      end
  | EmptyString => acc
  end.

Definition parseInt10 (s : string) : option Z :=
  match skipBlanks s with
  | String "-" rest => Z.opp <$> leadingDigits None rest
  | String "+" rest => leadingDigits None rest
  | rest => leadingDigits None rest
  end.

End FixedJs.

(** ** Vocabulary of the properties *)

(** One step of the generator, in milliseconds. *)
Definition stepMs : Z := interval * MS_PER_MINUTE.

(** The conflict rule in the words of the specification: strict overlap, or
    coincidence of the two starts or of the two ends. *)
Definition conflictRule (candidate : Slot) (b : Meeting) : Prop :=
  (slot_start candidate < end_time b /\ slot_end candidate > start_time b)
  \/ (slot_start candidate = start_time b \/ slot_end candidate = end_time b).

(** The calendar of a user that the engine ends up reading: the last one of
    that user in the list. *)
Definition ownerCalendar (calendars : list Calendar) (userId : string) : option Calendar :=
  last (List.filter (fun cal => bool_decide (user_id (cal_users cal) = userId)) calendars).

(** The meetings booked on one calendar. *)
Definition meetingsOn (cal : Calendar) (meetings : list Meeting) : list Meeting :=
  List.filter (fun m => calendar_id m =? cal_id cal) meetings.

(** What the engine decides for one owner and one slot, in terms of the
    owner's last calendar. *)
Definition ownerRule `{M : MomentTz} (calendars : list Calendar) (meetings : list Meeting)
    (slot : Slot) (userId : string) : bool :=
  match ownerCalendar calendars userId with
  | None => false
  | Some c =>
      checkTimeAgainstAvailability (slot_start slot) (slot_end slot)
        (cal_availability c) (timezone (cal_users c))
      && negb (hasConflict slot (meetingsOn c meetings))
  end.

(** A record the evaluator cannot read for the slot that starts at [t]: no
    availability object, no timezone, or a start or end text of the selected
    window from which moment makes an invalid moment. *)
Definition malformedRecord `{M : MomentTz} (c : Calendar) (t : Z) : Prop :=
  cal_availability c = None
  \/ truthy (timezone (cal_users c)) = None
  \/ exists avail zone w,
       cal_availability c = Some avail
       /\ truthy (timezone (cal_users c)) = Some zone
       /\ windowFor avail zone t = Some w
       /\ ((exists s, truthy (win_start w) = Some s /\ parseClock s = None)
           \/ (exists e, truthy (win_end w) = Some e /\ parseClock e = None)).

(** The store with one more row in the meetings table. *)
Definition addMeeting (m : Meeting) (db : Supabase) : Supabase :=
  {| calendars_table := calendars_table db;
     meetings_table := m :: meetings_table db;
     calendars_select_ok := calendars_select_ok db;
     meetings_select_ok := meetings_select_ok db |}.

(** The order of the listing: by start instant. *)
Definition byStart (a b : ListedMeeting) : Prop := lm_start a <= lm_start b.

(** The messages one run of the reminder job delivers for the selected
    meetings, in order: one per meeting with a joined user whose message
    goes through. *)
Definition delivered (dm_ok : string -> bool) (meetings : list ReminderRow)
    : list (string * Z) :=
  omap (fun meeting =>
          match rm_owner meeting with
          | Some owner =>
              if dm_ok (user_id owner) then Some (user_id owner, rm_id meeting) else None
          | None => None
          end)
       meetings.

(** The table after the updates for the given meeting ids, one after another. *)
Definition markAll (ids : list Z) (table : list ReminderRow) : list ReminderRow :=
  foldl (fun t id => markSent id t) table ids.

(** A row before and after a run of the reminder job: nothing but the
    [reminder_sent] flag may differ, and the flag is only ever set. *)
Definition sameButFlag (row row' : ReminderRow) : Prop :=
  rm_id row' = rm_id row
  /\ rm_meeting row' = rm_meeting row
  /\ rm_owner row' = rm_owner row
  /\ (rm_reminder_sent row = true -> rm_reminder_sent row' = true).

(** ** Closed inputs for the examples

    2024-01-01 is day 19723, a Monday; 2024-01-06 is day 19728, a Saturday;
    2024-01-08 is day 19730, a Monday. *)

(** A window from 9:00 AM to 5:00 PM with the given [available] flag. *)
Definition nineToFive (available : bool) : Window :=
  {| win_available := available; win_start := Some "9:00 AM"; win_end := Some "5:00 PM" |}.

(** Minute [m] of day [day], UTC. *)
Definition utc (day m : Z) : Z := wallTime day m.

(** Patterns of the closed examples. *)
Definition weekdaysOnly : Availability :=
  {| weekdays := Some (nineToFive false); weekends := None |}.
Definition weekendsDeclined : Availability :=
  {| weekdays := Some (nineToFive false); weekends := Some (nineToFive false) |}.

Definition alice : User := {| user_id := "alice"; timezone := Some "UTC" |}.

Definition aliceWork : Calendar :=
  {| cal_id := 1; cal_users := alice; cal_availability := Some weekendsDeclined |}.

Definition alicePrivate : Calendar :=
  {| cal_id := 2; cal_users := alice; cal_availability := Some weekendsDeclined |}.

(** A confirmed meeting on calendar [cal], from minute [from] to minute [to]
    of day [day], UTC. *)
Definition booking (cal day from to : Z) : Meeting :=
  {| calendar_id := cal; start_time := utc day from; end_time := utc day to;
     status := "confirmed" |}.

(** One owner, one calendar, one booking on Monday 2024-01-01, 10:00 to 11:00. *)
Definition bookedMonday : Supabase :=
  {| calendars_table := [aliceWork];
     meetings_table := [booking 1 19723 600 660];
     calendars_select_ok := true;
     meetings_select_ok := true |}.

(** One owner with two calendars; the booking is on the first one. *)
Definition twoCalendars : Supabase :=
  {| calendars_table := [aliceWork; alicePrivate];
     meetings_table := [booking 1 19723 600 660];
     calendars_select_ok := true;
     meetings_select_ok := true |}.

Definition bob : User := {| user_id := "bob"; timezone := Some "UTC" |}.

(** Bob's weekday window has a start text that is not a time. *)
Definition bobCalendar : Calendar :=
  {| cal_id := 3; cal_users := bob;
     cal_availability :=
       Some {| weekdays := Some {| win_available := false;
                                   win_start := Some "25 o'clock";
                                   win_end := Some "5:00 PM" |};
               weekends := None |} |}.

(** Alice and Bob, one calendar each. *)
Definition withBrokenBob : Supabase :=
  {| calendars_table := [aliceWork; bobCalendar];
     meetings_table := [booking 1 19723 600 660];
     calendars_select_ok := true;
     meetings_select_ok := true |}.

(** Bob's weekday window has a start text that is no clock time but that the
    forgiving reading takes for 12:00 AM. *)
Definition vagueBobCalendar : Calendar :=
  {| cal_id := 5; cal_users := bob;
     cal_availability :=
       Some {| weekdays := Some {| win_available := false;
                                   win_start := Some "noonish";
                                   win_end := Some "5:00 PM" |};
               weekends := None |} |}.

(** Alice and that Bob, one calendar each. *)
Definition withVagueBob : Supabase :=
  {| calendars_table := [aliceWork; vagueBobCalendar];
     meetings_table := [booking 1 19723 600 660];
     calendars_select_ok := true;
     meetings_select_ok := true |}.

(** A pending group session of alice, before the date range is known. *)
Definition aliceSession : GroupSession :=
  {| gs_title := "Planning"; gs_duration := 30; gs_participants := ["alice"; "bob"];
     gs_startDate := None; gs_endDate := None |}.

(** Alice has picked her work calendar and not yet filled in the form. *)
Definition alicePending : gmap string MeetingData :=
  {[ "alice" := {| md_calendarId := 1; md_startTime := None; md_endTime := None |} ]}.

Definition carol : User := {| user_id := "carol"; timezone := Some "UTC" |}.

Definition carolCalendar : Calendar :=
  {| cal_id := 4; cal_users := carol; cal_availability := Some weekdaysOnly |}.

(** Alice is booked from 10:00 to 11:00, Carol from 13:00 to 14:00. *)
Definition aliceAndCarol : Supabase :=
  {| calendars_table := [aliceWork; carolCalendar];
     meetings_table := [booking 1 19723 600 660; booking 4 19723 780 840];
     calendars_select_ok := true;
     meetings_select_ok := true |}.

(** One owner, one calendar, no meeting. *)
Definition emptyMonday : Supabase :=
  {| calendars_table := [aliceWork];
     meetings_table := [];
     calendars_select_ok := true;
     meetings_select_ok := true |}.

(** A meeting from 10:00 to 11:00 that is not confirmed. *)
Definition tentativeMeeting : Meeting :=
  {| calendar_id := 1; start_time := utc 19723 600; end_time := utc 19723 660;
     status := "tentative" |}.

(** The listing of one calendar with two meetings, read in the order 10:00,
    09:00. *)
Definition workCalendar : UserCalendar := {| uc_id := 1; uc_name := "Work" |}.

Definition workMeetings (calendarId : Z) : option (list Meeting) :=
  if calendarId =? 1 then Some [booking 1 19723 600 660; booking 1 19723 540 570]
  else None.

(** Two meetings of alice without a reminder: 10:00 and 15:00. *)
Definition reminderTable : list ReminderRow :=
  [ {| rm_id := 7; rm_meeting := booking 1 19723 600 660;
       rm_reminder_sent := false; rm_owner := Some alice |};
    {| rm_id := 8; rm_meeting := booking 1 19723 900 960;
       rm_reminder_sent := false; rm_owner := Some alice |} ].

(** The job at 09:40 and at 09:41, every message going through. *)
Definition twoTicks : list Tick :=
  [ {| tick_now := utc 19723 580; tick_select_ok := true; tick_dm_ok := fun _ => true |};
    {| tick_now := utc 19723 581; tick_select_ok := true; tick_dm_ok := fun _ => true |} ].

(** The 30-minute slot that starts at minute [m] of day [day], UTC. *)
Definition halfHour (day m : Z) : Slot :=
  {| slot_start := utc day m; slot_end := utc day (m + 30) |}.

(** Minutes after midnight of the step points 09:30, 10:00, ..., 16:30. *)
Definition stepPoints : list Z :=
  [570; 600; 630; 660; 690; 720; 750; 780; 810; 840; 870; 900; 930; 960; 990].

(** The same without 10:00 and 10:30. *)
Definition freeStepPoints : list Z :=
  [570; 660; 690; 720; 750; 780; 810; 840; 870; 900; 930; 960; 990].

(** * Properties *)

(** ** The availability evaluator *)

Section Evaluator.
Context `{M : MomentTz}.

Lemma truthy_Some field s : truthy field = Some s -> field = Some s /\ s <> "".
Proof.
  destruct field as [x|]; simpl; [|discriminate].
  destruct (decide (x = "")); [discriminate|]. intros [= ->]. done.
Qed.

Lemma windowFor_eq avail zone t :
  windowFor avail zone t
  = if isWeekendDay (localDay zone t) then weekends avail else weekdays avail.
Proof. reflexivity. Qed.

(** The evaluator, once the guards on the record have been passed: the two
    comparisons against the parsed window. *)
Lemma check_open_window avail timezone zone w s e t0 t1 :
  truthy timezone = Some zone ->
  windowFor avail zone t0 = Some w ->
  (isWeekendDay (localDay zone t0) = true -> win_available w = true) ->
  truthy (win_start w) = Some s ->
  truthy (win_end w) = Some e ->
  checkTimeAgainstAvailability t0 t1 (Some avail) timezone
  = isSameOrAfter (Some t0) (momentTzParse (localDate zone t0) s zone)
    && isSameOrBefore (Some t1) (momentTzParse (localDate zone t0) e zone).
Proof.
  intros Hz Hw Hav Hs He. unfold checkTimeAgainstAvailability.
  rewrite Hz. rewrite windowFor_eq in Hw.
  destruct (isWeekendDay (localDay zone t0)) eqn:Hd; rewrite Hw; simpl.
  - rewrite (Hav eq_refl). simpl. by rewrite Hs, He.
  - by rewrite Hs, He.
Qed.

(** Without an availability object or a timezone the evaluator answers
    [false] at once. *)
Lemma check_no_record t0 t1 availability timezone :
  availability = None \/ truthy timezone = None ->
  checkTimeAgainstAvailability t0 t1 availability timezone = false.
Proof.
  intros [-> | H]; unfold checkTimeAgainstAvailability; [done|].
  rewrite H. by destruct availability.
Qed.

(** A [true] answer passes every guard. *)
Lemma check_true_inv t0 t1 availability timezone :
  checkTimeAgainstAvailability t0 t1 availability timezone = true ->
  exists avail zone w s e opening closing,
    availability = Some avail /\ truthy timezone = Some zone
    /\ windowFor avail zone t0 = Some w
    /\ (isWeekendDay (localDay zone t0) = true -> win_available w = true)
    /\ truthy (win_start w) = Some s /\ truthy (win_end w) = Some e
    /\ momentTzParse (localDate zone t0) s zone = Some opening
    /\ momentTzParse (localDate zone t0) e zone = Some closing
    /\ opening <= t0 /\ t1 <= closing.
Proof.
  unfold checkTimeAgainstAvailability. intros H.
  destruct availability as [avail|]; [|done].
  destruct (truthy timezone) as [zone|] eqn:Hz; [|done].
  rewrite <- windowFor_eq in H.
  destruct (windowFor avail zone t0) as [w|] eqn:Hw.
  2:{ by destruct (isWeekendDay (localDay zone t0)). }
  assert (Hav : isWeekendDay (localDay zone t0) = true -> win_available w = true).
  { intros Hd. rewrite Hd in H. simpl in H. by destruct (win_available w). }
  assert (H' : match truthy (win_start w), truthy (win_end w) with
               | Some s, Some e =>
                   isSameOrAfter (Some t0) (momentTzParse (localDate zone t0) s zone)
                   && isSameOrBefore (Some t1) (momentTzParse (localDate zone t0) e zone)
               | _, _ => false
               end = true).
  { destruct (isWeekendDay (localDay zone t0) && negb (windowAvailable (Some w))); done. }
  clear H.
  destruct (truthy (win_start w)) as [s|] eqn:Hs; [|done].
  destruct (truthy (win_end w)) as [e|] eqn:He; [|done].
  apply andb_true_iff in H' as [H1 H2].
  destruct (momentTzParse (localDate zone t0) s zone) as [opening|] eqn:Ho; [|done].
  destruct (momentTzParse (localDate zone t0) e zone) as [closing|] eqn:Hc; [|done].
  simpl in H1, H2.
  exists avail, zone, w, s, e, opening, closing. repeat split; try done; lia.
Qed.

End Evaluator.

Section EvaluatorClaims.
Context `{M : MomentTz}.

(** C1 (amended). When the window of the start instant's day class is
    present with start and end fields that parse, and (on a local Saturday or
    Sunday) its [available] flag is set, the evaluator answers [true] exactly
    when the range starts at or after the window's opening instant and ends
    at or before its closing instant. Both ends are inclusive: a range that
    starts exactly at the opening and fits the window is accepted, a range
    that ends one minute after the closing is refused. *)
Theorem window_inclusion_is_inclusive avail timezone zone w s e opening closing t0 t1 :
  truthy timezone = Some zone ->
  windowFor avail zone t0 = Some w ->
  (isWeekendDay (localDay zone t0) = true -> win_available w = true) ->
  truthy (win_start w) = Some s ->
  truthy (win_end w) = Some e ->
  momentTzParse (localDate zone t0) s zone = Some opening ->
  momentTzParse (localDate zone t0) e zone = Some closing ->
  (checkTimeAgainstAvailability t0 t1 (Some avail) timezone = true
   <-> opening <= t0 /\ t1 <= closing)
  /\ (t0 = opening -> t1 <= closing ->
      checkTimeAgainstAvailability t0 t1 (Some avail) timezone = true)
  /\ (t1 = closing + MS_PER_MINUTE ->
      checkTimeAgainstAvailability t0 t1 (Some avail) timezone = false).
Proof.
  intros Hz Hw Hav Hs He Ho Hc.
  rewrite (check_open_window avail timezone zone w s e t0 t1 Hz Hw Hav Hs He).
  rewrite Ho, Hc. simpl.
  split; [|split].
  - rewrite andb_true_iff, !Z.leb_le. done.
  - intros -> Hle. apply andb_true_iff. rewrite !Z.leb_le. lia.
  - intros ->. apply andb_false_iff. right. apply Z.leb_gt.
    unfold MS_PER_MINUTE. lia.
Qed.

(** C5 (amended). For either day class, the evaluator answers [false] when
    the class's window is absent or lacks a start or an end field, and, for
    the weekend class, when its [available] flag is not set. (The flag of a
    weekday window is not read.) *)
Theorem closed_day_class_is_unavailable avail timezone zone t0 t1 :
  truthy timezone = Some zone ->
  windowFor avail zone t0 = None
  \/ (isWeekendDay (localDay zone t0) = true
      /\ windowAvailable (windowFor avail zone t0) = false)
  \/ (exists w, windowFor avail zone t0 = Some w
                /\ (truthy (win_start w) = None \/ truthy (win_end w) = None)) ->
  checkTimeAgainstAvailability t0 t1 (Some avail) timezone = false.
Proof.
  intros Hz H. unfold checkTimeAgainstAvailability. rewrite Hz.
  rewrite windowFor_eq in H.
  destruct (isWeekendDay (localDay zone t0)) eqn:Hd; simpl.
  - destruct H as [H | [[_ H] | (w & Hw & H)]].
    + by rewrite H.
    + by rewrite H.
    + rewrite Hw. simpl. destruct (win_available w); simpl; [|done].
      destruct H as [-> | ->]; [done|]. by destruct (truthy (win_start w)).
  - destruct H as [H | [[H _] | (w & Hw & H)]].
    + by rewrite H.
    + discriminate.
    + rewrite Hw. destruct H as [-> | ->]; [done|]. by destruct (truthy (win_start w)).
Qed.

End EvaluatorClaims.

(** Witness of C1: Monday 2024-01-01 in UTC, window 9:00 AM to 5:00 PM. The
    range 09:00 to 09:30 is accepted, the range 16:31 to 17:01 is refused. *)
Lemma window_inclusion_is_inclusive_witness :
  @checkTimeAgainstAvailability FixedOffsets (utc 19723 540) (utc 19723 570)
    (Some weekdaysOnly) (Some "UTC") = true
  /\ @checkTimeAgainstAvailability FixedOffsets (utc 19723 991) (utc 19723 1021)
       (Some weekdaysOnly) (Some "UTC") = false.
Proof.
  split.
  - apply (@window_inclusion_is_inclusive FixedOffsets weekdaysOnly (Some "UTC") "UTC"
             (nineToFive false) "9:00 AM" "5:00 PM"
             (utc 19723 540) (utc 19723 1020) (utc 19723 540) (utc 19723 570)).
    + reflexivity.
    + reflexivity.
    + vm_compute. discriminate.
    + reflexivity.
    + reflexivity.
    + reflexivity.
    + reflexivity.
    + reflexivity.
    + vm_compute. discriminate.
  - apply (@window_inclusion_is_inclusive FixedOffsets weekdaysOnly (Some "UTC") "UTC"
             (nineToFive false) "9:00 AM" "5:00 PM"
             (utc 19723 540) (utc 19723 1020) (utc 19723 991) (utc 19723 1021)).
    + reflexivity.
    + reflexivity.
    + vm_compute. discriminate.
    + reflexivity.
    + reflexivity.
    + reflexivity.
    + reflexivity.
    + reflexivity.
Defined.

(** C1 as stated fails on a weekend window that carries start and end times
    but is not flagged available: Saturday 2024-01-06, 10:00 to 10:30 UTC lies
    inside 9:00 AM to 5:00 PM, and the evaluator answers [false]. *)
Lemma declined_weekend_inside_window :
  @windowFor FixedOffsets weekendsDeclined "UTC" (utc 19728 600) = Some (nineToFive false)
  /\ @momentTzParse FixedOffsets (@localDate FixedOffsets "UTC" (utc 19728 600))
       "9:00 AM" "UTC" = Some (utc 19728 540)
  /\ @momentTzParse FixedOffsets (@localDate FixedOffsets "UTC" (utc 19728 600))
       "5:00 PM" "UTC" = Some (utc 19728 1020)
  /\ utc 19728 540 <= utc 19728 600
  /\ utc 19728 630 <= utc 19728 1020
  /\ @checkTimeAgainstAvailability FixedOffsets (utc 19728 600) (utc 19728 630)
       (Some weekendsDeclined) (Some "UTC") = false.
Proof. repeat split; vm_compute; congruence. Qed.

(** Witness of C5: a Saturday for an owner who declined weekends. *)
Lemma closed_day_class_is_unavailable_witness :
  @checkTimeAgainstAvailability FixedOffsets (utc 19728 600) (utc 19728 630)
    (Some weekendsDeclined) (Some "UTC") = false.
Proof.
  apply (@closed_day_class_is_unavailable FixedOffsets weekendsDeclined (Some "UTC") "UTC").
  - reflexivity.
  - right. left. split; reflexivity.
Defined.

(** C5 as stated fails on a weekday window whose [available] flag is not set
    (the setup form stores weekday windows without the flag): Monday
    2024-01-01, 09:30 to 10:00 UTC is accepted. *)
Lemma unflagged_weekday_window_accepted :
  @windowFor FixedOffsets weekdaysOnly "UTC" (utc 19723 570) = Some (nineToFive false)
  /\ win_available (nineToFive false) = false
  /\ @checkTimeAgainstAvailability FixedOffsets (utc 19723 570) (utc 19723 600)
       (Some weekdaysOnly) (Some "UTC") = true.
Proof. repeat split. Qed.

(** ** The conflict detector *)

Lemma meetingConflict_rule slot m : meetingConflict slot m = true <-> conflictRule slot m.
Proof.
  unfold meetingConflict, conflictRule.
  rewrite !orb_true_iff, andb_true_iff, !Z.ltb_lt, !Z.eqb_eq. lia.
Qed.

(** C2. The detector reports a conflict exactly when some booked range
    overlaps the candidate strictly or shares its start or its end, and
    reports none exactly when no booked range does. *)
Theorem conflict_iff_overlap_or_coincidence (candidate : Slot) (booked : list Meeting) :
  (hasConflict candidate booked = true
   <-> exists b, In b booked /\ conflictRule candidate b)
  /\ (hasConflict candidate booked = false
      <-> forall b, In b booked -> ~ conflictRule candidate b).
Proof.
  assert (Hyes : hasConflict candidate booked = true
                 <-> exists b, In b booked /\ conflictRule candidate b).
  { unfold hasConflict. rewrite existsb_exists.
    split; intros (b & Hin & Hb); exists b; split; try done;
      by apply meetingConflict_rule. }
  split; [exact Hyes|].
  rewrite <- not_true_iff_false, Hyes. split.
  - intros Hno b Hin Hb. apply Hno. by exists b.
  - intros Hno (b & Hin & Hb). by apply (Hno b).
Qed.

(** Two ranges of positive length that only touch do not conflict. *)
Lemma touching_ranges_do_not_conflict slot m :
  slot_start slot < slot_end slot ->
  start_time m < end_time m ->
  slot_end slot = start_time m \/ slot_start slot = end_time m ->
  meetingConflict slot m = false.
Proof.
  intros Hs Hm Htouch. apply not_true_iff_false.
  rewrite meetingConflict_rule. unfold conflictRule. lia.
Qed.

(** ** The slot generator *)

Section Generator.
Context `{M : MomentTz}.

Lemma slotLoop_enough fuel dayEnd duration slotStart :
  (Z.to_nat ((dayEnd - slotStart) / stepMs) < fuel)%nat ->
  is_Some (slotLoop fuel dayEnd duration slotStart).
Proof.
  revert slotStart. induction fuel as [|fuel IH]; intros slotStart Hfuel; [lia|].
  simpl. fold stepMs.
  destruct (Z.leb_spec (slotStart + stepMs) dayEnd) as [Hle|Hgt]; [|by eexists].
  destruct (IH (slotStart + stepMs)) as [rest Hrest].
  - replace (dayEnd - (slotStart + stepMs)) with ((dayEnd - slotStart) + (-1) * stepMs) by lia.
    rewrite Z.div_add by (unfold stepMs, interval, MS_PER_MINUTE; lia).
    assert (1 <= (dayEnd - slotStart) / stepMs).
    { apply Z.div_le_lower_bound; unfold stepMs, interval, MS_PER_MINUTE in *; lia. }
    lia.
  - rewrite Hrest. by eexists.
Qed.

(** Every slot of the inner loop starts a positive number of steps after the
    loop's initial [slotStart], lasts [duration] minutes and ends by [dayEnd]. *)
Lemma slotLoop_sound fuel dayEnd duration slotStart slots slot :
  slotLoop fuel dayEnd duration slotStart = Some slots ->
  In slot slots ->
  (exists k, 1 <= k /\ slot_start slot = slotStart + k * stepMs)
  /\ slot_end slot = slot_start slot + duration * MS_PER_MINUTE
  /\ slot_start slot <= dayEnd
  /\ slot_end slot <= dayEnd.
Proof.
  revert slotStart slots. induction fuel as [|fuel IH]; intros slotStart slots; [done|].
  simpl. fold stepMs.
  destruct (Z.leb_spec (slotStart + stepMs) dayEnd) as [Hle|Hgt].
  2:{ intros [= <-]. done. }
  destruct (slotLoop fuel dayEnd duration (slotStart + stepMs)) as [rest|] eqn:Hrest; [|done].
  assert (Hlater : In slot rest ->
            (exists k, 1 <= k /\ slot_start slot = slotStart + k * stepMs)
            /\ slot_end slot = slot_start slot + duration * MS_PER_MINUTE
            /\ slot_start slot <= dayEnd /\ slot_end slot <= dayEnd).
  { intros Hin. destruct (IH _ _ Hrest Hin) as ((k & Hk & Hstart) & Hrem).
    split; [|done]. exists (k + 1). split; [lia|]. rewrite Hstart. lia. }
  destruct (Z.leb_spec (slotStart + stepMs + duration * MS_PER_MINUTE) dayEnd) as [Hfit|Hover];
    intros [= <-]; [|exact Hlater].
  intros [<- | Hin]; [|by apply Hlater]. simpl.
  split; [exists 1; lia|]. repeat split; lia.
Qed.

(** Every step point after the first whose slot fits is emitted. *)
Lemma slotLoop_complete fuel dayEnd duration slotStart slots k :
  slotLoop fuel dayEnd duration slotStart = Some slots ->
  1 <= k ->
  0 <= duration ->
  slotStart + k * stepMs + duration * MS_PER_MINUTE <= dayEnd ->
  In {| slot_start := slotStart + k * stepMs;
        slot_end := slotStart + k * stepMs + duration * MS_PER_MINUTE |} slots.
Proof.
  revert slotStart slots k. induction fuel as [|fuel IH]; intros slotStart slots k; [done|].
  simpl. fold stepMs. intros Hloop Hk Hdur Hfit.
  assert (Hstep : 0 < stepMs) by (unfold stepMs, interval, MS_PER_MINUTE; lia).
  assert (HM : 0 < MS_PER_MINUTE) by (unfold MS_PER_MINUTE; lia).
  destruct (Z.leb_spec (slotStart + stepMs) dayEnd) as [Hle|Hgt]; [|nia].
  destruct (slotLoop fuel dayEnd duration (slotStart + stepMs)) as [rest|] eqn:Hrest; [|done].
  destruct (Z.eq_dec k 1) as [-> | Hne].
  - destruct (Z.leb_spec (slotStart + stepMs + duration * MS_PER_MINUTE) dayEnd); [|lia].
    injection Hloop as <-. left. f_equal; lia.
  - assert (Hin : In {| slot_start := slotStart + stepMs + (k - 1) * stepMs;
                        slot_end := slotStart + stepMs + (k - 1) * stepMs
                                    + duration * MS_PER_MINUTE |} rest).
    { apply IH; [done|lia|done|lia]. }
    replace (slotStart + stepMs + (k - 1) * stepMs) with (slotStart + k * stepMs) in Hin by lia.
    destruct (slotStart + stepMs + duration * MS_PER_MINUTE <=? dayEnd);
      injection Hloop as <-; [by right|done].
Qed.

Lemma daySlots_total day duration : is_Some (daySlots day duration).
Proof. unfold daySlots, slotFuel. apply slotLoop_enough. fold stepMs. lia. Qed.

Lemma dayLoop_enough fuel start endDate duration :
  (Z.to_nat (endDate - start + 1) < fuel)%nat ->
  is_Some (dayLoop fuel start endDate duration).
Proof.
  revert start. induction fuel as [|fuel IH]; intros start Hfuel; [lia|].
  simpl. destruct (Z.leb_spec start endDate) as [Hle|Hgt]; [|by eexists].
  destruct (daySlots_total start duration) as [today ->].
  destruct (IH (start + 1)) as [later ->]; [lia|]. by eexists.
Qed.

(** The generator returns for every input. *)
Lemma generateTimeSlots_total startDate endDate duration :
  is_Some (generateTimeSlots startDate endDate duration).
Proof. unfold generateTimeSlots. apply dayLoop_enough. lia. Qed.

(** Every generated slot is a slot of one of the days of the range. *)
Lemma dayLoop_sound fuel start endDate duration slots slot :
  dayLoop fuel start endDate duration = Some slots ->
  In slot slots ->
  exists day today, start <= day <= endDate
                    /\ daySlots day duration = Some today /\ In slot today.
Proof.
  revert start slots. induction fuel as [|fuel IH]; intros start slots; [done|].
  simpl. destruct (Z.leb_spec start endDate) as [Hle|Hgt].
  2:{ intros [= <-]. done. }
  destruct (daySlots start duration) as [today|] eqn:Htoday; [|done].
  destruct (dayLoop fuel (start + 1) endDate duration) as [later|] eqn:Hlater; [|done].
  intros [= <-] Hin. apply in_app_iff in Hin as [Hin|Hin].
  - exists start, today. split; [lia|done].
  - destruct (IH _ _ Hlater Hin) as (day & l & Hday & Hl & Hin').
    exists day, l. split; [lia|done].
Qed.

(** Every slot of every day of the range is generated. *)
Lemma dayLoop_complete fuel start endDate duration slots day today slot :
  dayLoop fuel start endDate duration = Some slots ->
  start <= day <= endDate ->
  daySlots day duration = Some today ->
  In slot today ->
  In slot slots.
Proof.
  revert start slots. induction fuel as [|fuel IH]; intros start slots; [done|].
  simpl. destruct (Z.leb_spec start endDate) as [Hle|Hgt]; [|lia].
  destruct (daySlots start duration) as [first|] eqn:Hfirst; [|done].
  destruct (dayLoop fuel (start + 1) endDate duration) as [later|] eqn:Hlater; [|done].
  intros [= <-] Hday Htoday Hin. apply in_app_iff.
  destruct (Z.eq_dec day start) as [-> | Hne].
  - left. congruence.
  - right. apply (IH _ _ Hlater); [lia|done|done].
Qed.

(** On every day of the range, every step point from the second one on whose
    slot ends by 17:00 is generated. *)
Lemma generateTimeSlots_complete startDate endDate duration slots day k :
  generateTimeSlots startDate endDate duration = Some slots ->
  startDate <= day <= endDate ->
  1 <= k ->
  0 <= duration ->
  dayStartOf day + k * stepMs + duration * MS_PER_MINUTE <= dayEndOf day ->
  In {| slot_start := dayStartOf day + k * stepMs;
        slot_end := dayStartOf day + k * stepMs + duration * MS_PER_MINUTE |} slots.
Proof.
  intros Hgen Hday Hk Hdur Hfit.
  destruct (daySlots_total day duration) as [today Htoday].
  apply (dayLoop_complete _ _ _ _ _ day today _ Hgen Hday Htoday).
  by apply (slotLoop_complete _ _ _ _ _ _ Htoday).
Qed.

(** A range whose end precedes its start generates nothing. *)
Lemma generateTimeSlots_reversed startDate endDate duration :
  endDate < startDate ->
  generateTimeSlots startDate endDate duration = Some [].
Proof.
  intros Hlt. unfold generateTimeSlots. simpl.
  destruct (Z.leb_spec startDate endDate); [lia|done].
Qed.

End Generator.

(** ** The group engine *)

Lemma ownerCalendar_snoc calendars c u :
  ownerCalendar (calendars ++ [c]) u
  = if decide (user_id (cal_users c) = u) then Some c else ownerCalendar calendars u.
Proof.
  unfold ownerCalendar. rewrite List.filter_app. simpl.
  case_decide as Hu.
  - rewrite bool_decide_eq_true_2 by done. apply last_snoc.
  - rewrite bool_decide_eq_false_2 by done. by rewrite app_nil_r.
Qed.

Lemma ownerCalendar_owner calendars c u :
  ownerCalendar calendars u = Some c -> In c calendars /\ user_id (cal_users c) = u.
Proof.
  unfold ownerCalendar. intros H. apply last_Some_elem_of, list_elem_of_In in H.
  apply filter_In in H as [Hin Hu]. by apply bool_decide_eq_true in Hu.
Qed.

(** Selecting the calendars of a set of users keeps, for each of them, the
    same last calendar. *)
Lemma ownerCalendar_selected (calendars : list Calendar) (userIds : list string) u :
  u ∈ userIds ->
  ownerCalendar
    (List.filter (fun cal => bool_decide (user_id (cal_users cal) ∈ userIds)) calendars) u
  = ownerCalendar calendars u.
Proof.
  intros Hu. unfold ownerCalendar. f_equal.
  induction calendars as [|c calendars IH]; [done|]. simpl.
  destruct (bool_decide (user_id (cal_users c) = u)) eqn:Hc.
  - apply bool_decide_eq_true in Hc. rewrite bool_decide_eq_true_2 by by rewrite Hc.
    simpl. rewrite bool_decide_eq_true_2 by done. by rewrite IH.
  - destruct (bool_decide (user_id (cal_users c) ∈ userIds)); [|done].
    simpl. by rewrite Hc.
Qed.

Lemma availabilityByUser_lookup calendars u :
  availabilityByUser calendars !! u
  = (fun c => {| ua_timezone := timezone (cal_users c);
                 ua_availability := cal_availability c |}) <$> ownerCalendar calendars u.
Proof.
  unfold availabilityByUser.
  induction calendars as [|c calendars IH] using rev_ind; [done|].
  rewrite foldl_snoc, ownerCalendar_snoc, lookup_insert.
  by case_decide.
Qed.

Lemma meetingsByUser_lookup calendars meetings u :
  meetingsByUser calendars meetings !! u
  = (fun c => meetingsOn c meetings) <$> ownerCalendar calendars u.
Proof.
  unfold meetingsByUser.
  induction calendars as [|c calendars IH] using rev_ind; [done|].
  rewrite foldl_snoc, ownerCalendar_snoc, lookup_insert.
  by case_decide.
Qed.

Lemma forallb_agree {A} (f g : A -> bool) (l : list A) :
  (forall x, In x l -> f x = g x) -> forallb f l = forallb g l.
Proof.
  induction l as [|x l IH]; intros H; [done|]. simpl.
  rewrite (H x) by by left. rewrite IH; [done|]. intros y Hy. apply H. by right.
Qed.

Section Engine.
Context `{M : MomentTz}.

Lemma ownerFree_rule calendars meetings slot u :
  ownerFree (availabilityByUser calendars) (meetingsByUser calendars meetings) slot u
  = ownerRule calendars meetings slot u.
Proof.
  unfold ownerFree, ownerRule.
  rewrite availabilityByUser_lookup, meetingsByUser_lookup.
  destruct (ownerCalendar calendars u) as [c|]; simpl; [|done].
  by destruct (checkTimeAgainstAvailability _ _ _ _).
Qed.

(** The engine when both selects succeed and some calendar is found. *)
Lemma engine_returns db userIds startDate endDate duration calendars meetings :
  selectCalendars db userIds = Rows calendars ->
  calendars <> [] ->
  selectMeetings db (map cal_id calendars) startDate endDate = Rows meetings ->
  exists timeSlots,
    generateTimeSlots startDate endDate duration = Some timeSlots
    /\ findGroupAvailability db userIds startDate endDate duration
       = Returned (List.filter
                     (fun slot => forallb (ownerRule calendars meetings slot) userIds)
                     timeSlots).
Proof.
  intros Hc Hne Hm.
  destruct (generateTimeSlots_total startDate endDate duration) as [timeSlots Hts].
  exists timeSlots. split; [done|].
  unfold findGroupAvailability. rewrite Hc.
  destruct (decide (calendars = [])); [done|].
  rewrite Hm, Hts. f_equal.
  apply filter_ext. intros slot. apply forallb_agree. intros u _.
  apply ownerFree_rule.
Qed.

(** The engine throws exactly when calendars were found and the select on
    meetings failed; no field of an owner's record is involved. *)
Lemma engine_throws_iff db userIds startDate endDate duration :
  findGroupAvailability db userIds startDate endDate duration = Threw
  <-> (exists calendars, selectCalendars db userIds = Rows calendars /\ calendars <> [])
      /\ meetings_select_ok db = false.
Proof.
  unfold findGroupAvailability.
  destruct (selectCalendars db userIds) as [calendars|] eqn:Hc.
  2:{ split; [done|]. by intros [(c & [=] & _) _]. }
  destruct (decide (calendars = [])) as [->|Hne].
  { split; [done|]. by intros [(c & [= <-] & Hc') _]. }
  unfold selectMeetings. destruct (meetings_select_ok db).
  - destruct (generateTimeSlots_total startDate endDate duration) as [ts ->].
    split; [done|]. by intros [_ [=]].
  - split; [|done]. intros _. split; [|done]. by exists calendars.
Qed.

(** The engine always ends, and when the select on meetings succeeds it
    returns. *)
Lemma engine_total db userIds startDate endDate duration :
  meetings_select_ok db = true ->
  exists slots, findGroupAvailability db userIds startDate endDate duration = Returned slots.
Proof.
  intros Hok. unfold findGroupAvailability.
  destruct (selectCalendars db userIds) as [calendars|]; [|by eexists].
  destruct (decide (calendars = [])); [by eexists|].
  unfold selectMeetings. rewrite Hok.
  destruct (generateTimeSlots_total startDate endDate duration) as [ts ->]. by eexists.
Qed.

(** Every slot the engine returns was generated, and every requested owner
    passed the evaluator and the detector on the owner's last calendar. *)
Lemma engine_slot_inv db userIds startDate endDate duration slots slot u :
  findGroupAvailability db userIds startDate endDate duration = Returned slots ->
  In slot slots ->
  u ∈ userIds ->
  exists timeSlots c meetings,
    generateTimeSlots startDate endDate duration = Some timeSlots
    /\ In slot timeSlots
    /\ ownerCalendar (calendars_table db) u = Some c
    /\ checkTimeAgainstAvailability (slot_start slot) (slot_end slot)
         (cal_availability c) (timezone (cal_users c)) = true
    /\ selectMeetings db
         (map cal_id
            (List.filter (fun cal => bool_decide (user_id (cal_users cal) ∈ userIds))
                         (calendars_table db)))
         startDate endDate = Rows meetings
    /\ hasConflict slot (meetingsOn c meetings) = false.
Proof.
  intros Hret Hin Hu.
  destruct (selectCalendars db userIds) as [calendars|] eqn:Hc.
  2:{ unfold findGroupAvailability in Hret. rewrite Hc in Hret.
      injection Hret as <-. done. }
  destruct (decide (calendars = [])) as [->|Hne].
  { unfold findGroupAvailability in Hret. rewrite Hc in Hret.
    injection Hret as <-. done. }
  destruct (selectMeetings db (map cal_id calendars) startDate endDate)
    as [meetings|] eqn:Hm.
  2:{ unfold findGroupAvailability in Hret. rewrite Hc in Hret.
      destruct (decide (calendars = [])); [done|]. by rewrite Hm in Hret. }
  destruct (engine_returns db userIds startDate endDate duration calendars meetings
              Hc Hne Hm) as (timeSlots & Hts & Heq).
  rewrite Heq in Hret. injection Hret as <-.
  apply filter_In in Hin as [Hgen Hall].
  rewrite forallb_forall in Hall.
  specialize (Hall u (proj1 (list_elem_of_In _ _) Hu)).
  unfold ownerRule in Hall.
  assert (Hsel : calendars
                 = List.filter (fun cal => bool_decide (user_id (cal_users cal) ∈ userIds))
                               (calendars_table db)).
  { unfold selectCalendars in Hc. destruct (calendars_select_ok db); congruence. }
  assert (Hlast : ownerCalendar calendars u = ownerCalendar (calendars_table db) u).
  { rewrite Hsel. by apply ownerCalendar_selected. }
  rewrite Hlast in Hall.
  destruct (ownerCalendar (calendars_table db) u) as [c|]; [|done].
  apply andb_true_iff in Hall as [Hcheck Hfree].
  apply negb_true_iff in Hfree.
  exists timeSlots, c, meetings. rewrite <- Hsel. done.
Qed.

End Engine.

Lemma monday_slots :
  @generateTimeSlots FixedOffsets 19723 19723 30 = Some (map (halfHour 19723) stepPoints).
Proof. vm_compute. reflexivity. Qed.

(** One owner, window 9:00 AM to 5:00 PM, booked 10:00 to 11:00: the engine
    drops the slots that start at 10:00 and 10:30 and keeps the two that
    touch the booking. *)
Lemma bookedMonday_result :
  @findGroupAvailability FixedOffsets bookedMonday ["alice"] 19723 19723 30
  = Returned (map (halfHour 19723) freeStepPoints).
Proof. vm_compute. reflexivity. Qed.

(** Saturday to Monday for an owner who declined weekends: Monday only. *)
Lemma weekendRange_result :
  @findGroupAvailability FixedOffsets bookedMonday ["alice"] 19728 19730 30
  = Returned (map (halfHour 19730) stepPoints).
Proof. vm_compute. reflexivity. Qed.

(** ** Claims on the conflict boundary and the generator *)

(** C3 (amended). A candidate that only touches a booked range (its end is
    the booking's start, or its start is the booking's end, both ranges of
    positive length) is not a conflict. With one booking from 10:00 to 11:00
    the engine excludes the half-hour slots starting at 10:00 and 10:30 and
    returns 09:30 to 10:00 and 11:00 to 11:30 with the rest of the day. *)
Theorem touching_slot_is_not_a_conflict :
  (forall slot m,
      slot_start slot < slot_end slot ->
      start_time m < end_time m ->
      slot_end slot = start_time m \/ slot_start slot = end_time m ->
      meetingConflict slot m = false)
  /\ @findGroupAvailability FixedOffsets bookedMonday ["alice"] 19723 19723 30
     = Returned (map (halfHour 19723) freeStepPoints)
  /\ In (halfHour 19723 570) (map (halfHour 19723) freeStepPoints)
  /\ In (halfHour 19723 660) (map (halfHour 19723) freeStepPoints)
  /\ ~ In (halfHour 19723 600) (map (halfHour 19723) freeStepPoints)
  /\ ~ In (halfHour 19723 630) (map (halfHour 19723) freeStepPoints).
Proof.
  split; [exact touching_ranges_do_not_conflict|].
  split; [exact bookedMonday_result|].
  repeat split.
  - vm_compute. tauto.
  - vm_compute. tauto.
  - vm_compute. intros H. repeat destruct H as [H|H]; try discriminate H. exact H.
  - vm_compute. intros H. repeat destruct H as [H|H]; try discriminate H. exact H.
Qed.

(** Witness of C3: 10:00 to 10:30 against a booking from 10:30 to 11:00. *)
Lemma touching_slot_is_not_a_conflict_witness :
  meetingConflict (halfHour 19723 600) (booking 1 19723 630 660) = false.
Proof.
  apply (proj1 touching_slot_is_not_a_conflict).
  - vm_compute. reflexivity.
  - vm_compute. reflexivity.
  - left. reflexivity.
Defined.

(** C3 as stated fails: the candidate 10:00 to 10:30 is not flagged against
    the booking 10:30 to 11:00, and with the booking 10:00 to 11:00 the engine
    returns both 09:30 to 10:00 and 11:00 to 11:30. *)
Lemma abutting_slots_are_returned :
  hasConflict (halfHour 19723 600) [booking 1 19723 630 660] = false
  /\ (exists slots,
        @findGroupAvailability FixedOffsets bookedMonday ["alice"] 19723 19723 30
        = Returned slots
        /\ In (halfHour 19723 570) slots
        /\ In (halfHour 19723 660) slots).
Proof.
  split; [reflexivity|].
  exists (map (halfHour 19723) freeStepPoints).
  split; [exact bookedMonday_result|].
  split; vm_compute; tauto.
Qed.

(** C4 (what the code does). On every day the generator emits slots only
    from the second step point on: every slot starts at least 30 minutes
    after 09:00, lasts the requested duration and ends by 17:00. On Monday
    2024-01-01 with 30-minute meetings the first slot is 09:30 to 10:00 and
    no slot starts at 09:00. *)
Theorem no_slot_starts_at_nine :
  (forall (M : MomentTz) (day duration : Z),
      exists slots,
        daySlots day duration = Some slots
        /\ forall slot, In slot slots ->
             dayStartOf day + interval * MS_PER_MINUTE <= slot_start slot
             /\ slot_end slot = slot_start slot + duration * MS_PER_MINUTE
             /\ slot_end slot <= dayEndOf day)
  /\ @generateTimeSlots FixedOffsets 19723 19723 30
     = Some (map (halfHour 19723) stepPoints)
  /\ ~ In (halfHour 19723 540) (map (halfHour 19723) stepPoints).
Proof.
  split; [|split].
  - intros M day duration.
    destruct (daySlots_total day duration) as [slots Hslots].
    exists slots. split; [done|]. intros slot Hin.
    destruct (slotLoop_sound _ _ _ _ _ _ Hslots Hin) as ((k & Hk & Hstart) & Hend & _ & Hle).
    split; [|done]. rewrite Hstart. fold stepMs.
    assert (0 < stepMs) by (unfold stepMs, interval, MS_PER_MINUTE; lia). nia.
  - exact monday_slots.
  - vm_compute. intros H. repeat destruct H as [H|H]; try discriminate H. exact H.
Qed.

(** ** Claims on the group engine *)

Section EngineClaims.
Context `{M : MomentTz}.

Lemma malformed_is_unavailable c t0 t1 :
  malformedRecord c t0 ->
  checkTimeAgainstAvailability t0 t1 (cal_availability c) (timezone (cal_users c)) = false.
Proof.
  intros Hbad. apply not_true_iff_false. intros Hok.
  destruct (check_true_inv _ _ _ _ Hok)
    as (avail & zone & w & s & e & opening & closing
        & Ha & Hz & Hw & _ & Hs & He & Ho & Hc & _).
  unfold momentTzParse in Ho, Hc.
  destruct Hbad as [Hbad | [Hbad | (avail' & zone' & w' & Ha' & Hz' & Hw' & Hbad)]];
    [congruence | congruence |].
  assert (avail' = avail) as -> by congruence.
  assert (zone' = zone) as -> by congruence.
  assert (w' = w) as -> by congruence.
  destruct Hbad as [(s' & Hs' & Hp) | (e' & He' & Hp)].
  - assert (s' = s) as -> by congruence. by rewrite Hp in Ho.
  - assert (e' = e) as -> by congruence. by rewrite Hp in Hc.
Qed.

(** C6. Whatever the other owners and the bookings are, when a requested
    owner's pattern does not offer weekends ([weekends.available] false, or
    no weekend window), no slot the engine returns starts on a Saturday or a
    Sunday of that owner's timezone. *)
Theorem declined_weekends_never_returned
    db userIds startDate endDate duration slots u c avail zone slot :
  findGroupAvailability db userIds startDate endDate duration = Returned slots ->
  u ∈ userIds ->
  ownerCalendar (calendars_table db) u = Some c ->
  cal_availability c = Some avail ->
  windowAvailable (weekends avail) = false ->
  truthy (timezone (cal_users c)) = Some zone ->
  In slot slots ->
  isWeekendDay (localDay zone (slot_start slot)) = false.
Proof.
  intros Hret Hu Hc Ha Hoff Hz Hin.
  destruct (engine_slot_inv _ _ _ _ _ _ _ _ Hret Hin Hu)
    as (ts & c' & ms & _ & _ & Hc' & Hok & _).
  assert (c' = c) as -> by congruence.
  destruct (check_true_inv _ _ _ _ Hok)
    as (avail' & zone' & w & _ & _ & _ & _ & Ha' & Hz' & Hw & Hav & _).
  assert (avail' = avail) as -> by congruence.
  assert (zone' = zone) as -> by congruence.
  apply not_true_iff_false. intros Hweekend.
  rewrite windowFor_eq, Hweekend in Hw.
  rewrite Hw in Hoff. simpl in Hoff.
  rewrite (Hav Hweekend) in Hoff. discriminate.
Qed.

(** C7 (amended). A requested owner whose record has no availability object
    or no timezone, or whose start or end text makes moment return an
    invalid moment, is treated as unavailable for the slot and the
    computation goes on: the evaluator answers [false] on such a record, no
    slot the engine returns has a requested owner with such a record, and
    the engine throws only when calendars were found and the select on
    meetings failed, which no owner record influences; otherwise it returns.
    A text that is no clock time but that moment still reads is not such a
    record: it counts as the time moment reads. *)
Theorem broken_owner_record_is_unavailable db userIds startDate endDate duration :
  (forall c t0 t1, malformedRecord c t0 ->
      checkTimeAgainstAvailability t0 t1 (cal_availability c) (timezone (cal_users c))
      = false)
  /\ (forall slots slot u c,
        findGroupAvailability db userIds startDate endDate duration = Returned slots ->
        In slot slots -> u ∈ userIds ->
        ownerCalendar (calendars_table db) u = Some c ->
        ~ malformedRecord c (slot_start slot))
  /\ (findGroupAvailability db userIds startDate endDate duration = Threw
      <-> (exists calendars, selectCalendars db userIds = Rows calendars /\ calendars <> [])
          /\ meetings_select_ok db = false)
  /\ (meetings_select_ok db = true ->
      exists slots,
        findGroupAvailability db userIds startDate endDate duration = Returned slots).
Proof.
  split; [exact malformed_is_unavailable|].
  split; [|split; [apply engine_throws_iff | apply engine_total]].
  intros slots slot u c Hret Hin Hu Hc Hbad.
  destruct (engine_slot_inv _ _ _ _ _ _ _ _ Hret Hin Hu)
    as (ts & c' & ms & _ & _ & Hc' & Hcheck & _).
  assert (c' = c) as -> by congruence.
  rewrite (malformed_is_unavailable c _ _ Hbad) in Hcheck. discriminate.
Qed.

(** C8. With no owner the engine returns the empty list, whatever the store
    holds and whether or not its selects succeed. *)
Theorem empty_owner_set_returns_nothing db startDate endDate duration :
  findGroupAvailability db [] startDate endDate duration = Returned [].
Proof.
  unfold findGroupAvailability, selectCalendars.
  destruct (calendars_select_ok db); [|done].
  assert (List.filter (fun cal => bool_decide (user_id (cal_users cal) ∈ @nil string))
                      (calendars_table db) = []) as ->; [|done].
  induction (calendars_table db) as [|c l IH]; [done|].
  cbn [List.filter]. rewrite bool_decide_eq_false_2; [done|]. apply not_elem_of_nil.
Qed.

(** C9 (amended). A range whose end precedes its start is refused by the
    date-range form with its own reply, before anything is computed and
    without touching the pending sessions. The engine does not check the
    range: it generates no slot and, when it returns, returns the empty
    list. *)
Theorem reversed_range_is_refused_by_the_form
    db userIds startDate endDate duration pending user startDateStr endDateStr :
  endDate < startDate ->
  (parseDate startDateStr = Some startDate ->
   parseDate endDateStr = Some endDate ->
   processDateRangeForm pending user startDateStr endDateStr = (EndBeforeStart, pending))
  /\ generateTimeSlots startDate endDate duration = Some []
  /\ (forall slots,
        findGroupAvailability db userIds startDate endDate duration = Returned slots ->
        slots = [])
  /\ (meetings_select_ok db = true ->
      findGroupAvailability db userIds startDate endDate duration = Returned []).
Proof.
  intros Hlt.
  assert (Hnone : forall slots,
             findGroupAvailability db userIds startDate endDate duration = Returned slots ->
             slots = []).
  { intros slots. unfold findGroupAvailability.
    destruct (selectCalendars db userIds) as [calendars|]; [|congruence].
    destruct (decide (calendars = [])); [congruence|].
    destruct (selectMeetings _ _ _ _); [|done].
    rewrite (generateTimeSlots_reversed _ _ _ Hlt). simpl. congruence. }
  split; [|split; [|split]].
  - intros Hs He. unfold processDateRangeForm. rewrite Hs, He. simpl.
    destruct (Z.ltb_spec endDate startDate); [done|lia].
  - by apply generateTimeSlots_reversed.
  - exact Hnone.
  - intros Hok.
    destruct (engine_total db userIds startDate endDate duration Hok) as [slots Hret].
    by rewrite Hret, (Hnone slots Hret).
Qed.

(** C10. For every requested owner the engine evaluates the pattern, the
    timezone and the bookings of exactly one calendar, the last one of that
    owner in the fetched list; a booking on a calendar that is not the last
    calendar of any requested owner never changes what the engine returns. *)
Theorem only_the_last_calendar_counts db userIds startDate endDate duration :
  (forall calendars meetings,
      selectCalendars db userIds = Rows calendars ->
      calendars <> [] ->
      selectMeetings db (map cal_id calendars) startDate endDate = Rows meetings ->
      exists timeSlots,
        generateTimeSlots startDate endDate duration = Some timeSlots
        /\ findGroupAvailability db userIds startDate endDate duration
           = Returned
               (List.filter
                  (fun slot =>
                     forallb
                       (fun u =>
                          match ownerCalendar calendars u with
                          | None => false
                          | Some c =>
                              checkTimeAgainstAvailability (slot_start slot) (slot_end slot)
                                (cal_availability c) (timezone (cal_users c))
                              && negb (hasConflict slot (meetingsOn c meetings))
                          end)
                       userIds)
                  timeSlots))
  /\ (forall m,
        (forall u c, u ∈ userIds ->
                     ownerCalendar (calendars_table db) u = Some c ->
                     calendar_id m <> cal_id c) ->
        findGroupAvailability (addMeeting m db) userIds startDate endDate duration
        = findGroupAvailability db userIds startDate endDate duration).
Proof.
  split.
  - intros calendars meetings Hc Hne Hm.
    exact (engine_returns db userIds startDate endDate duration calendars meetings Hc Hne Hm).
  - intros m Hother.
    destruct (selectCalendars db userIds) as [calendars|] eqn:Hc.
    2:{ unfold findGroupAvailability.
        change (selectCalendars (addMeeting m db) userIds) with (selectCalendars db userIds).
        by rewrite Hc. }
    destruct (decide (calendars = [])) as [->|Hne].
    { unfold findGroupAvailability.
      change (selectCalendars (addMeeting m db) userIds) with (selectCalendars db userIds).
      by rewrite Hc. }
    destruct (meetings_select_ok db) eqn:Hok.
    2:{ transitivity (@Threw (list Slot)); [|symmetry]; apply engine_throws_iff;
          (split; [by exists calendars|done]). }
    assert (Hsel : calendars
                   = List.filter (fun cal => bool_decide (user_id (cal_users cal) ∈ userIds))
                                 (calendars_table db)).
    { unfold selectCalendars in Hc. destruct (calendars_select_ok db); congruence. }
    destruct (selectMeetings db (map cal_id calendars) startDate endDate)
      as [meetings|] eqn:Hm.
    2:{ unfold selectMeetings in Hm. by rewrite Hok in Hm. }
    destruct (selectMeetings (addMeeting m db) (map cal_id calendars) startDate endDate)
      as [meetings'|] eqn:Hm'.
    2:{ unfold selectMeetings in Hm'. simpl in Hm'. by rewrite Hok in Hm'. }
    destruct (engine_returns db userIds startDate endDate duration calendars meetings
                Hc Hne Hm) as (ts & Hts & ->).
    destruct (engine_returns (addMeeting m db) userIds startDate endDate duration
                calendars meetings' Hc Hne Hm') as (ts' & Hts' & ->).
    assert (ts' = ts) as -> by congruence.
    f_equal. apply filter_ext. intros slot. apply forallb_agree. intros u Hu.
    apply list_elem_of_In in Hu.
    unfold ownerRule.
    assert (Hlast : ownerCalendar calendars u = ownerCalendar (calendars_table db) u).
    { rewrite Hsel. by apply ownerCalendar_selected. }
    destruct (ownerCalendar calendars u) as [c|] eqn:Hlastc; [|done].
    assert (Hon : meetingsOn c meetings' = meetingsOn c meetings); [|by rewrite Hon].
    unfold selectMeetings in Hm, Hm'. simpl in Hm'. rewrite Hok in Hm, Hm'.
    injection Hm as <-. injection Hm' as <-.
    unfold meetingsOn. simpl.
    match goal with |- context [if ?b then _ else _] => destruct b end; [|done].
    simpl. destruct (Z.eqb_spec (calendar_id m) (cal_id c)) as [Heq|]; [|done].
    exfalso. apply (Hother u c Hu); [congruence|done].
Qed.

End EngineClaims.

(** Bob's record is malformed for the Monday slots, and alice alone would
    have been free at 09:30: the engine returns, with nothing for the pair. *)
Lemma withBrokenBob_result :
  @malformedRecord FixedOffsets bobCalendar (utc 19723 570)
  /\ @findGroupAvailability FixedOffsets withBrokenBob ["alice"; "bob"] 19723 19723 30
     = Returned [].
Proof.
  split; [|vm_compute; reflexivity].
  right. right. eexists _, "UTC", _. repeat split.
  left. exists "25 o'clock". split; reflexivity.
Qed.

(** C7, as stated, fails: bob's start text 'noonish' is not of the form
    h:mm AM/PM, moment's forgiving reading takes it for 12:00 AM, and the
    code treats bob as available: the evaluator accepts Monday 09:30 to
    10:00 for him and the engine returns that slot for alice and bob. *)
Lemma unreadable_start_text_is_accepted :
  Fixed.parseClock "noonish" = None
  /\ @parseClock ForgivingOffsets "noonish" = Some 0
  /\ @checkTimeAgainstAvailability ForgivingOffsets (utc 19723 570) (utc 19723 600)
       (cal_availability vagueBobCalendar) (timezone (cal_users vagueBobCalendar))
     = true
  /\ (exists slots,
        @findGroupAvailability ForgivingOffsets withVagueBob ["alice"; "bob"]
          19723 19723 30 = Returned slots
        /\ In (halfHour 19723 570) slots).
Proof.
  split; [vm_compute; reflexivity|].
  split; [vm_compute; reflexivity|].
  split; [vm_compute; reflexivity|].
  eexists. split; [vm_compute; reflexivity|].
  left. reflexivity.
Qed.

(** With the booking on alice's first calendar, the engine still returns the
    slots from 10:00 to 11:00: only her last calendar is read. *)
Lemma twoCalendars_result :
  @findGroupAvailability FixedOffsets twoCalendars ["alice"] 19723 19723 30
  = Returned (map (halfHour 19723) stepPoints).
Proof. vm_compute. reflexivity. Qed.

(** Witness of C6: Saturday to Monday, alice has declined weekends; the slot
    Monday 2024-01-08 09:30 is returned and is not on a weekend. *)
Lemma declined_weekends_never_returned_witness :
  isWeekendDay (@localDay FixedOffsets "UTC" (slot_start (halfHour 19730 570))) = false.
Proof.
  apply (@declined_weekends_never_returned FixedOffsets bookedMonday ["alice"]
           19728 19730 30 (map (halfHour 19730) stepPoints)
           "alice" aliceWork weekendsDeclined "UTC").
  - vm_compute. reflexivity.
  - apply list_elem_of_In. simpl. left. reflexivity.
  - vm_compute. reflexivity.
  - reflexivity.
  - reflexivity.
  - reflexivity.
  - simpl. left. reflexivity.
Defined.

(** Witness of C7: the store in which bob's start text has hour 25, from
    which also the forgiving reading makes an invalid moment. The evaluator
    answers [false] for bob at Monday 09:30, and the engine returns. *)
Lemma broken_owner_record_is_unavailable_witness :
  @checkTimeAgainstAvailability ForgivingOffsets (utc 19723 570) (utc 19723 600)
    (cal_availability bobCalendar) (timezone (cal_users bobCalendar)) = false
  /\ exists slots,
       @findGroupAvailability ForgivingOffsets withBrokenBob ["alice"; "bob"]
         19723 19723 30
       = Returned slots.
Proof.
  destruct (@broken_owner_record_is_unavailable ForgivingOffsets withBrokenBob
              ["alice"; "bob"] 19723 19723 30) as (Hcheck & _ & _ & Hreturns).
  split.
  - apply Hcheck. right. right.
    exists {| weekdays := Some {| win_available := false;
                                  win_start := Some "25 o'clock";
                                  win_end := Some "5:00 PM" |};
              weekends := None |}, "UTC",
           {| win_available := false; win_start := Some "25 o'clock";
              win_end := Some "5:00 PM" |}.
    repeat split. left. exists "25 o'clock". split; reflexivity.
  - apply Hreturns. reflexivity.
Defined.

(** Witness of C9: the form and the engine on 2024-01-02 to 2024-01-01. *)
Lemma reversed_range_is_refused_by_the_form_witness :
  @processDateRangeForm FixedOffsets {[ "alice" := aliceSession ]}
    "alice" "2024-01-02" "2024-01-01"
  = (EndBeforeStart, {[ "alice" := aliceSession ]})
  /\ @generateTimeSlots FixedOffsets 19724 19723 30 = Some []
  /\ @findGroupAvailability FixedOffsets bookedMonday ["alice"] 19724 19723 30
     = Returned [].
Proof.
  destruct (@reversed_range_is_refused_by_the_form FixedOffsets bookedMonday ["alice"]
              19724 19723 30 {[ "alice" := aliceSession ]} "alice"
              "2024-01-02" "2024-01-01") as (Hform & Hgen & _ & Hengine).
  - reflexivity.
  - split; [|split].
    + apply Hform; reflexivity.
    + exact Hgen.
    + apply Hengine. reflexivity.
Defined.

(** C9 as stated fails on the engine: asked for 2024-01-02 to 2024-01-01 it
    returns the empty list, the same answer as for a range without a free
    slot, and no error. *)
Lemma reversed_range_gives_empty_result :
  19723 < 19724
  /\ @findGroupAvailability FixedOffsets bookedMonday ["alice"] 19724 19723 30
     = Returned [].
Proof. split; vm_compute; reflexivity. Qed.

(** Witness of C10: one more booking on alice's first calendar, which is not
    her last one, leaves the result as it was. *)
Lemma only_the_last_calendar_counts_witness :
  @findGroupAvailability FixedOffsets
    (addMeeting (booking 1 19723 720 780) twoCalendars) ["alice"] 19723 19723 30
  = @findGroupAvailability FixedOffsets twoCalendars ["alice"] 19723 19723 30.
Proof.
  apply (proj2 (@only_the_last_calendar_counts FixedOffsets twoCalendars ["alice"]
                  19723 19723 30)).
  intros u c Hu Hc.
  apply list_elem_of_In in Hu. simpl in Hu. destruct Hu as [<- | []].
  vm_compute in Hc. injection Hc as <-. vm_compute. discriminate.
Defined.

(** * Further properties of the modelled code *)

(** ** More on the slot generator *)

Section GeneratorMore.
Context `{M : MomentTz}.

(** Every step point after the first that is not past [dayEnd], and whose
    slot ends by [dayEnd], is emitted by the inner loop. *)
Lemma slotLoop_emits fuel dayEnd duration slotStart slots k :
  slotLoop fuel dayEnd duration slotStart = Some slots ->
  1 <= k ->
  slotStart + k * stepMs <= dayEnd ->
  slotStart + k * stepMs + duration * MS_PER_MINUTE <= dayEnd ->
  In {| slot_start := slotStart + k * stepMs;
        slot_end := slotStart + k * stepMs + duration * MS_PER_MINUTE |} slots.
Proof.
  revert slotStart slots k. induction fuel as [|fuel IH]; intros slotStart slots k; [done|].
  simpl. fold stepMs. intros Hloop Hk Hin Hfit.
  assert (Hstep : 0 < stepMs) by (unfold stepMs, interval, MS_PER_MINUTE; lia).
  destruct (Z.leb_spec (slotStart + stepMs) dayEnd) as [Hle|Hgt]; [|nia].
  destruct (slotLoop fuel dayEnd duration (slotStart + stepMs)) as [rest|] eqn:Hrest; [|done].
  destruct (Z.eq_dec k 1) as [-> | Hne].
  - destruct (Z.leb_spec (slotStart + stepMs + duration * MS_PER_MINUTE) dayEnd); [|lia].
    injection Hloop as <-. left. f_equal; lia.
  - assert (Hlater : In {| slot_start := slotStart + stepMs + (k - 1) * stepMs;
                           slot_end := slotStart + stepMs + (k - 1) * stepMs
                                       + duration * MS_PER_MINUTE |} rest).
    { apply IH; [done|lia|lia|lia]. }
    replace (slotStart + stepMs + (k - 1) * stepMs) with (slotStart + k * stepMs)
      in Hlater by lia.
    destruct (slotStart + stepMs + duration * MS_PER_MINUTE <=? dayEnd);
      injection Hloop as <-; [by right|done].
Qed.

(** X1. The generator returns, and a slot is in its list exactly when, for
    some day of the range and some step point after 09:00 of that day, it
    starts at that step point, lasts the requested duration, and neither its
    start nor its end is past 17:00 of that day. *)
Theorem generated_slots_characterised startDate endDate duration :
  exists slots,
    generateTimeSlots startDate endDate duration = Some slots
    /\ forall slot,
         In slot slots
         <-> exists day k,
               startDate <= day <= endDate /\ 1 <= k
               /\ slot_start slot = dayStartOf day + k * stepMs
               /\ slot_end slot = slot_start slot + duration * MS_PER_MINUTE
               /\ slot_start slot <= dayEndOf day
               /\ slot_end slot <= dayEndOf day.
Proof.
  destruct (generateTimeSlots_total startDate endDate duration) as [slots Hgen].
  exists slots. split; [done|]. intros slot. split.
  - intros Hin.
    destruct (dayLoop_sound _ _ _ _ _ _ Hgen Hin) as (day & today & Hday & Htoday & Hin').
    destruct (slotLoop_sound _ _ _ _ _ _ Htoday Hin') as ((k & Hk & Hs) & He & Hle & Hle').
    by exists day, k.
  - intros (day & k & Hday & Hk & Hs & He & Hle & Hle').
    destruct (daySlots_total day duration) as [today Htoday].
    apply (dayLoop_complete _ _ _ _ _ day today _ Hgen Hday Htoday).
    destruct slot as [s e]. simpl in *. subst s e.
    by apply (slotLoop_emits _ _ _ _ _ _ Htoday).
Qed.

(** Number of slots of the inner loop for a duration that is not negative. *)
Lemma slotLoop_length fuel dayEnd duration slotStart slots :
  slotLoop fuel dayEnd duration slotStart = Some slots ->
  0 <= duration ->
  length slots = Z.to_nat ((dayEnd - slotStart - duration * MS_PER_MINUTE) / stepMs).
Proof.
  assert (Hstep : 0 < stepMs) by (unfold stepMs, interval, MS_PER_MINUTE; lia).
  assert (HM : 0 < MS_PER_MINUTE) by (unfold MS_PER_MINUTE; lia).
  revert slotStart slots. induction fuel as [|fuel IH]; intros slotStart slots; [done|].
  simpl. fold stepMs. intros Hloop Hdur.
  set (d := duration * MS_PER_MINUTE) in *.
  assert (Hd : 0 <= d) by (unfold d; nia).
  destruct (Z.leb_spec (slotStart + stepMs) dayEnd) as [Hle|Hgt].
  2:{ injection Hloop as <-. simpl.
      assert ((dayEnd - slotStart - d) / stepMs <= 0); [|lia].
      assert ((dayEnd - slotStart - d) / stepMs < 1); [|lia].
      apply Z.div_lt_upper_bound; lia. }
  destruct (slotLoop fuel dayEnd duration (slotStart + stepMs)) as [rest|] eqn:Hrest; [|done].
  specialize (IH _ _ Hrest Hdur). fold d in IH.
  replace (dayEnd - (slotStart + stepMs) - d)
    with ((dayEnd - slotStart - d) + (-1) * stepMs) in IH by lia.
  rewrite Z.div_add in IH by lia.
  destruct (Z.leb_spec (slotStart + stepMs + d) dayEnd) as [Hfit|Hover];
    injection Hloop as <-.
  - simpl. rewrite IH.
    assert (1 <= (dayEnd - slotStart - d) / stepMs); [|lia].
    apply Z.div_le_lower_bound; lia.
  - rewrite IH.
    assert ((dayEnd - slotStart - d) / stepMs < 1); [|lia].
    apply Z.div_lt_upper_bound; lia.
Qed.

Lemma dayLoop_length fuel start endDate duration slots width :
  dayLoop fuel start endDate duration = Some slots ->
  0 <= duration ->
  (forall day, start <= day <= endDate -> dayEndOf day - dayStartOf day = width) ->
  length slots
  = (Z.to_nat (endDate - start + 1)
     * Z.to_nat ((width - duration * MS_PER_MINUTE) / stepMs))%nat.
Proof.
  revert start slots. induction fuel as [|fuel IH]; intros start slots; [done|].
  simpl. intros Hloop Hdur Hwidth.
  destruct (Z.leb_spec start endDate) as [Hle|Hgt].
  2:{ injection Hloop as <-. simpl. lia. }
  destruct (daySlots start duration) as [today|] eqn:Htoday; [|done].
  destruct (dayLoop fuel (start + 1) endDate duration) as [later|] eqn:Hlater; [|done].
  injection Hloop as <-. rewrite length_app.
  rewrite (IH _ _ Hlater Hdur) by (intros day Hday; apply Hwidth; lia).
  rewrite (slotLoop_length _ _ _ _ _ Htoday Hdur).
  replace (dayEndOf start - dayStartOf start - duration * MS_PER_MINUTE)
    with (width - duration * MS_PER_MINUTE) by (rewrite <- (Hwidth start); lia).
  replace (Z.to_nat (endDate - start + 1))
    with (S (Z.to_nat (endDate - (start + 1) + 1))) by lia.
  simpl. lia.
Qed.

(** X2. When 09:00 and 17:00 are [width] milliseconds apart on every day of
    the range and the duration is not negative, the generator emits, for
    each day, one slot per whole step that fits into [width] less the
    duration: the list has (number of days) times that many slots. A
    duration longer than [width] less one step leaves the list empty. *)
Theorem generated_slot_count startDate endDate duration width slots :
  generateTimeSlots startDate endDate duration = Some slots ->
  0 <= duration ->
  (forall day, startDate <= day <= endDate -> dayEndOf day - dayStartOf day = width) ->
  length slots
  = (Z.to_nat (endDate - startDate + 1)
     * Z.to_nat ((width - duration * MS_PER_MINUTE) / stepMs))%nat
  /\ (width < stepMs + duration * MS_PER_MINUTE -> slots = []).
Proof.
  intros Hgen Hdur Hwidth.
  pose proof (dayLoop_length _ _ _ _ _ _ Hgen Hdur Hwidth) as Hlen.
  split; [done|]. intros Hlong.
  assert (Hstep : 0 < stepMs) by (unfold stepMs, interval, MS_PER_MINUTE; lia).
  assert ((width - duration * MS_PER_MINUTE) / stepMs < 1)
    by (apply Z.div_lt_upper_bound; lia).
  apply length_zero_iff_nil. rewrite Hlen. lia.
Qed.

(** The outer loop gives the same list with any fuel that suffices. *)
Lemma dayLoop_fuel fuel fuel' start endDate duration slots slots' :
  dayLoop fuel start endDate duration = Some slots ->
  dayLoop fuel' start endDate duration = Some slots' ->
  slots = slots'.
Proof.
  revert fuel' start slots slots'.
  induction fuel as [|fuel IH]; intros [|fuel'] start slots slots'; try done.
  simpl. destruct (start <=? endDate); [|congruence].
  destruct (daySlots start duration) as [today|]; [|done].
  destruct (dayLoop fuel (start + 1) endDate duration) as [later|] eqn:Hlater; [|done].
  destruct (dayLoop fuel' (start + 1) endDate duration) as [later'|] eqn:Hlater'; [|done].
  intros [= <-] [= <-]. by rewrite (IH _ _ _ _ Hlater Hlater').
Qed.

Lemma dayLoop_app fuel1 fuel2 fuel3 a b c duration slots1 slots2 slots3 :
  a <= b + 1 -> b <= c ->
  dayLoop fuel1 a b duration = Some slots1 ->
  dayLoop fuel2 (b + 1) c duration = Some slots2 ->
  dayLoop fuel3 a c duration = Some slots3 ->
  slots3 = slots1 ++ slots2.
Proof.
  revert fuel3 a slots1 slots3.
  induction fuel1 as [|fuel1 IH]; intros fuel3 a slots1 slots3 Hab Hbc; [done|].
  simpl. destruct (Z.leb_spec a b) as [Hle|Hgt].
  - destruct fuel3 as [|fuel3]; [done|]. simpl.
    destruct (Z.leb_spec a c); [|lia].
    destruct (daySlots a duration) as [today|]; [|done].
    destruct (dayLoop fuel1 (a + 1) b duration) as [later1|] eqn:H1; [|done].
    destruct (dayLoop fuel3 (a + 1) c duration) as [later3|] eqn:H3; [|done].
    intros [= <-] H2 [= <-].
    rewrite (IH fuel3 (a + 1) later1 later3); [by rewrite app_assoc|lia|done..].
  - intros [= <-] H2 H3. assert (a = b + 1) as -> by lia.
    simpl. exact (dayLoop_fuel _ _ _ _ _ _ _ H3 H2).
Qed.

(** X3. Generating over a range and over the range that follows it, and
    appending, is generating over the two ranges at once. *)
Theorem generated_slots_of_adjacent_ranges a b c duration :
  a <= b + 1 -> b <= c ->
  exists first second,
    generateTimeSlots a b duration = Some first
    /\ generateTimeSlots (b + 1) c duration = Some second
    /\ generateTimeSlots a c duration = Some (first ++ second).
Proof.
  intros Hab Hbc.
  destruct (generateTimeSlots_total a b duration) as [first H1].
  destruct (generateTimeSlots_total (b + 1) c duration) as [second H2].
  destruct (generateTimeSlots_total a c duration) as [whole H3].
  exists first, second. split; [done|]. split; [done|].
  rewrite H3. f_equal.
  exact (dayLoop_app _ _ _ _ _ _ _ _ _ _ Hab Hbc H1 H2 H3).
Qed.

(** Slots in the order of their start instants. *)
Lemma slotLoop_ascending fuel dayEnd duration slotStart slots :
  slotLoop fuel dayEnd duration slotStart = Some slots ->
  StronglySorted (fun a b => slot_start a < slot_start b) slots.
Proof.
  assert (Hstep : 0 < stepMs) by (unfold stepMs, interval, MS_PER_MINUTE; lia).
  revert slotStart slots. induction fuel as [|fuel IH]; intros slotStart slots; [done|].
  simpl. fold stepMs.
  destruct (slotStart + stepMs <=? dayEnd).
  2:{ intros [= <-]. constructor. }
  destruct (slotLoop fuel dayEnd duration (slotStart + stepMs)) as [rest|] eqn:Hrest; [|done].
  destruct (slotStart + stepMs + duration * MS_PER_MINUTE <=? dayEnd);
    intros [= <-]; [|by apply (IH _ _ Hrest)].
  constructor; [by apply (IH _ _ Hrest)|].
  apply Forall_forall. intros slot Hin. apply list_elem_of_In in Hin.
  destruct (slotLoop_sound _ _ _ _ _ _ Hrest Hin) as ((k & Hk & Hs) & _). simpl. nia.
Qed.

Lemma dayLoop_ascending fuel start endDate duration slots :
  (forall d1 d2, d1 < d2 -> dayEndOf d1 < dayStartOf d2) ->
  dayLoop fuel start endDate duration = Some slots ->
  StronglySorted (fun a b => slot_start a < slot_start b) slots.
Proof.
  intros Hdays.
  assert (Hstep : 0 < stepMs) by (unfold stepMs, interval, MS_PER_MINUTE; lia).
  revert start slots. induction fuel as [|fuel IH]; intros start slots; [done|].
  simpl. destruct (start <=? endDate).
  2:{ intros [= <-]. constructor. }
  destruct (daySlots start duration) as [today|] eqn:Htoday; [|done].
  destruct (dayLoop fuel (start + 1) endDate duration) as [later|] eqn:Hlater; [|done].
  intros [= <-]. apply StronglySorted_app. split; [|split].
  - intros x1 x2 H1 H2. apply list_elem_of_In in H1, H2.
    destruct (slotLoop_sound _ _ _ _ _ _ Htoday H1) as (_ & _ & Hle & _).
    destruct (dayLoop_sound _ _ _ _ _ _ Hlater H2) as (day & l & Hday & Hl & Hin).
    destruct (slotLoop_sound _ _ _ _ _ _ Hl Hin) as ((k & Hk & Hs) & _).
    assert (dayEndOf start < dayStartOf day) by (apply Hdays; lia). nia.
  - by apply (slotLoop_ascending _ _ _ _ _ Htoday).
  - by apply (IH _ _ Hlater).
Qed.

(** X4. When 17:00 of a day precedes 09:00 of every later day, the generator
    lists its slots in strictly ascending order of their start instants: no
    slot is listed twice. *)
Theorem generated_slots_ascend startDate endDate duration slots :
  (forall d1 d2, d1 < d2 -> dayEndOf d1 < dayStartOf d2) ->
  generateTimeSlots startDate endDate duration = Some slots ->
  StronglySorted (fun a b => slot_start a < slot_start b) slots /\ NoDup slots.
Proof.
  intros Hdays Hgen.
  pose proof (dayLoop_ascending _ _ _ _ _ Hdays Hgen) as Hsorted.
  split; [done|].
  clear Hgen. induction Hsorted as [|slot slots Hs IH Hall]; constructor; [|done].
  intros Hin. rewrite Forall_forall in Hall. specialize (Hall _ Hin). lia.
Qed.

End GeneratorMore.

(** ** More on the conflict test *)

(** X22. For a slot and a meeting that both have positive length, the
    conflict test of the engine is plain strict overlap: its clauses for
    equal starts and equal ends add nothing, and the test gives the same
    answer when slot and meeting trade places. *)
Theorem conflict_is_strict_overlap slot m :
  slot_start slot < slot_end slot ->
  start_time m < end_time m ->
  (meetingConflict slot m = true
   <-> slot_start slot < end_time m /\ start_time m < slot_end slot)
  /\ meetingConflict slot m
     = meetingConflict {| slot_start := start_time m; slot_end := end_time m |}
                       {| calendar_id := calendar_id m; start_time := slot_start slot;
                          end_time := slot_end slot; status := status m |}.
Proof.
  intros Hs Hm. split.
  - rewrite meetingConflict_rule. unfold conflictRule. lia.
  - apply eq_true_iff_eq. rewrite !meetingConflict_rule. unfold conflictRule. simpl. lia.
Qed.

(** ** More on the group engine *)

Section EngineMore.
Context `{M : MomentTz}.

Lemma selectCalendars_set db (l1 l2 : list string) :
  (forall u, u ∈ l1 <-> u ∈ l2) ->
  selectCalendars db l1 = selectCalendars db l2.
Proof.
  intros Hset. unfold selectCalendars.
  destruct (calendars_select_ok db); [|done]. f_equal.
  apply filter_ext. intros cal. apply bool_decide_ext, Hset.
Qed.

Lemma forallb_set {A} (f : A -> bool) (l1 l2 : list A) :
  (forall x, x ∈ l1 <-> x ∈ l2) -> forallb f l1 = forallb f l2.
Proof.
  intros Hset. apply eq_true_iff_eq. rewrite !forallb_forall.
  split; intros H x Hx; apply H, list_elem_of_In, Hset, list_elem_of_In, Hx.
Qed.

(** X5. The engine reads the list of owners as a set: the order of the user
    ids and their repetitions do not change what it does. *)
Theorem owner_list_is_read_as_a_set db (l1 l2 : list string) startDate endDate duration :
  (forall u, u ∈ l1 <-> u ∈ l2) ->
  findGroupAvailability db l1 startDate endDate duration
  = findGroupAvailability db l2 startDate endDate duration.
Proof.
  intros Hset. unfold findGroupAvailability.
  rewrite (selectCalendars_set db l1 l2 Hset).
  destruct (selectCalendars db l2) as [calendars|]; [|done].
  destruct (decide (calendars = [])); [done|].
  destruct (selectMeetings _ _ _ _) as [meetings|]; [|done].
  destruct (generateTimeSlots _ _ _) as [timeSlots|]; [|done].
  f_equal. apply filter_ext. intros slot. by apply forallb_set.
Qed.

(** The selected meetings that lie on one of the selected calendars. *)
Lemma meetingsOn_selected db (ids : list Z) startDate endDate meetings c :
  selectMeetings db ids startDate endDate = Rows meetings ->
  cal_id c ∈ ids ->
  meetingsOn c meetings
  = List.filter
      (fun m => (calendar_id m =? cal_id c)
                && ((startDate * MS_PER_DAY <=? end_time m)
                    && (start_time m <=? endDate * MS_PER_DAY + 86399000)
                    && bool_decide (status m = "confirmed")))
      (meetings_table db).
Proof.
  intros Hsel Hid. unfold selectMeetings in Hsel.
  destruct (meetings_select_ok db); [|done]. injection Hsel as <-.
  unfold meetingsOn.
  induction (meetings_table db) as [|m l IH]; [done|]. simpl.
  destruct (Z.eqb_spec (calendar_id m) (cal_id c)) as [Heq|Hne].
  - rewrite bool_decide_eq_true_2 by by rewrite Heq. simpl.
    destruct (_ && _ && _); simpl; [|done].
    rewrite (proj2 (Z.eqb_eq _ _) Heq). by rewrite IH.
  - simpl. destruct (_ && _ && _ && _); simpl; [|done].
    by rewrite (proj2 (Z.eqb_neq _ _) Hne).
Qed.

Lemma ownerCalendar_id_selected db (userIds : list string) u c :
  u ∈ userIds ->
  ownerCalendar (calendars_table db) u = Some c ->
  cal_id c
  ∈ map cal_id
      (List.filter (fun cal => bool_decide (user_id (cal_users cal) ∈ userIds))
                   (calendars_table db)).
Proof.
  intros Hu Hc. apply ownerCalendar_owner in Hc as [Hin Huser].
  apply list_elem_of_In, in_map, filter_In. split; [done|].
  apply bool_decide_eq_true. by rewrite Huser.
Qed.

(** X6. Asking for more owners never adds a slot: when the list of owners
    is not empty, every slot returned for the longer list is returned for
    the shorter one. (For the empty list the engine returns nothing, so the
    condition is needed.) *)
Theorem more_owners_never_add_slots
    db (userIds more : list string) startDate endDate duration slots slots' slot :
  userIds <> [] ->
  findGroupAvailability db userIds startDate endDate duration = Returned slots ->
  findGroupAvailability db (userIds ++ more) startDate endDate duration = Returned slots' ->
  In slot slots' ->
  In slot slots.
Proof.
  intros Hne Hret Hret' Hin.
  destruct userIds as [|u0 rest] eqn:Hids; [done|]. rewrite <- Hids in *.
  assert (Hsub : forall u, u ∈ userIds -> u ∈ userIds ++ more).
  { intros u Hu. apply elem_of_app. by left. }
  assert (Hu0 : u0 ∈ userIds) by (rewrite Hids; apply list_elem_of_here).
  destruct (engine_slot_inv _ _ _ _ _ _ _ _ Hret' Hin (Hsub _ Hu0))
    as (ts & c0 & ms' & Hgen & Hts & Hc0 & _ & Hms' & _).
  assert (Hok : calendars_select_ok db = true).
  { destruct (calendars_select_ok db) eqn:Hok; [done|].
    unfold findGroupAvailability, selectCalendars in Hret'. rewrite Hok in Hret'.
    injection Hret' as <-. done. }
  set (calendars := List.filter
                      (fun cal => bool_decide (user_id (cal_users cal) ∈ userIds))
                      (calendars_table db)).
  assert (Hsel : selectCalendars db userIds = Rows calendars).
  { unfold selectCalendars. by rewrite Hok. }
  assert (Hnonempty : calendars <> []).
  { pose proof (ownerCalendar_id_selected db userIds u0 c0 Hu0 Hc0) as Hid.
    fold calendars in Hid. intros Hnil. rewrite Hnil in Hid. simpl in Hid.
    by apply not_elem_of_nil in Hid. }
  assert (Hmok : meetings_select_ok db = true).
  { unfold selectMeetings in Hms'. by destruct (meetings_select_ok db). }
  destruct (selectMeetings db (map cal_id calendars) startDate endDate)
    as [ms|] eqn:Hms.
  2:{ unfold selectMeetings in Hms. by rewrite Hmok in Hms. }
  destruct (engine_returns db userIds startDate endDate duration calendars ms
              Hsel Hnonempty Hms) as (ts0 & Hgen0 & Heq).
  assert (ts0 = ts) as -> by congruence.
  rewrite Heq in Hret. injection Hret as <-.
  apply filter_In. split; [done|].
  apply forallb_forall. intros u Hu. apply list_elem_of_In in Hu.
  destruct (engine_slot_inv _ _ _ _ _ _ _ _ Hret' Hin (Hsub _ Hu))
    as (_ & c & ms2 & _ & _ & Hc & Hcheck & Hms2 & Hfree).
  unfold ownerRule. unfold calendars.
  rewrite (ownerCalendar_selected _ _ _ Hu), Hc, Hcheck. simpl.
  apply negb_true_iff.
  rewrite (meetingsOn_selected _ _ _ _ _ c Hms
             (ownerCalendar_id_selected db userIds u c Hu Hc)).
  rewrite <- (meetingsOn_selected _ _ _ _ _ c Hms2
                (ownerCalendar_id_selected db (userIds ++ more) u c (Hsub _ Hu) Hc)).
  done.
Qed.

(** X7. Only confirmed meetings inside the queried window can block a
    slot: a meeting with another status, one that ended before 00:00 UTC of
    the start date, or one that starts after 23:59:59 UTC of the end date
    leaves the engine's answer unchanged. *)
Theorem unselected_meetings_never_block db userIds startDate endDate duration m :
  status m <> "confirmed"
  \/ end_time m < startDate * MS_PER_DAY
  \/ endDate * MS_PER_DAY + 86399000 < start_time m ->
  findGroupAvailability (addMeeting m db) userIds startDate endDate duration
  = findGroupAvailability db userIds startDate endDate duration.
Proof.
  intros Hout.
  assert (Hsel : forall ids,
             selectMeetings (addMeeting m db) ids startDate endDate
             = selectMeetings db ids startDate endDate).
  { intros ids. unfold selectMeetings. simpl.
    destruct (meetings_select_ok db); [|done]. f_equal.
    assert (bool_decide (calendar_id m ∈ ids)
            && (startDate * MS_PER_DAY <=? end_time m)
            && (start_time m <=? endDate * MS_PER_DAY + 86399000)
            && bool_decide (status m = "confirmed") = false) as ->; [|done].
    destruct Hout as [Hs | [He | Hs]].
    - rewrite (bool_decide_eq_false_2 _ Hs). apply andb_false_r.
    - rewrite (proj2 (Z.leb_gt _ _) He). by rewrite andb_false_r.
    - rewrite (proj2 (Z.leb_gt _ _) Hs). by rewrite andb_false_r. }
  unfold findGroupAvailability.
  change (selectCalendars (addMeeting m db) userIds) with (selectCalendars db userIds).
  destruct (selectCalendars db userIds) as [calendars|]; [|done].
  destruct (decide (calendars = [])); [done|]. by rewrite Hsel.
Qed.

(** X8. When one of the requested owners has no calendar, the engine
    returns no slot at all. *)
Theorem owner_without_calendar_blocks_all
    db (userIds : list string) startDate endDate duration u slots :
  u ∈ userIds ->
  (forall c, In c (calendars_table db) -> user_id (cal_users c) <> u) ->
  findGroupAvailability db userIds startDate endDate duration = Returned slots ->
  slots = [].
Proof.
  intros Hu Hnone Hret. destruct slots as [|slot slots]; [done|]. exfalso.
  destruct (engine_slot_inv _ _ _ _ _ (slot :: slots) slot u Hret
              (or_introl eq_refl) Hu) as (_ & c & _ & _ & _ & Hc & _).
  apply ownerCalendar_owner in Hc as [Hin Huser]. by apply (Hnone c).
Qed.

(** X9. Every slot the engine returns is one the generator produced, and
    for every requested owner it lies inside the window of the owner's last
    calendar for the slot's local day (between the parsed start and end
    times, ends included), while no confirmed meeting of the queried window
    on that calendar overlaps it or shares its start or its end. *)
Theorem returned_slots_are_free
    db (userIds : list string) startDate endDate duration slots slot u :
  findGroupAvailability db userIds startDate endDate duration = Returned slots ->
  In slot slots ->
  u ∈ userIds ->
  (exists timeSlots,
      generateTimeSlots startDate endDate duration = Some timeSlots /\ In slot timeSlots)
  /\ exists c avail zone w s e opening closing,
       ownerCalendar (calendars_table db) u = Some c
       /\ cal_availability c = Some avail
       /\ truthy (timezone (cal_users c)) = Some zone
       /\ windowFor avail zone (slot_start slot) = Some w
       /\ truthy (win_start w) = Some s /\ truthy (win_end w) = Some e
       /\ momentTzParse (localDate zone (slot_start slot)) s zone = Some opening
       /\ momentTzParse (localDate zone (slot_start slot)) e zone = Some closing
       /\ opening <= slot_start slot /\ slot_end slot <= closing
       /\ forall m,
            In m (meetings_table db) ->
            calendar_id m = cal_id c ->
            status m = "confirmed" ->
            startDate * MS_PER_DAY <= end_time m ->
            start_time m <= endDate * MS_PER_DAY + 86399000 ->
            ~ conflictRule slot m.
Proof.
  intros Hret Hin Hu.
  destruct (engine_slot_inv _ _ _ _ _ _ _ _ Hret Hin Hu)
    as (ts & c & ms & Hgen & Hts & Hc & Hcheck & Hms & Hfree).
  split; [by exists ts|].
  destruct (check_true_inv _ _ _ _ Hcheck)
    as (avail & zone & w & s & e & opening & closing
        & Ha & Hz & Hw & _ & Hs & He & Ho & Hcl & Hle1 & Hle2).
  exists c, avail, zone, w, s, e, opening, closing.
  repeat (split; [done|]).
  intros m Hm Hid Hst Hfrom Hto Hconf.
  rewrite (meetingsOn_selected _ _ _ _ _ c Hms
             (ownerCalendar_id_selected db userIds u c Hu Hc)) in Hfree.
  apply not_true_iff_false in Hfree. apply Hfree.
  unfold hasConflict. apply existsb_exists. exists m.
  split; [|by apply meetingConflict_rule].
  apply filter_In. split; [done|].
  rewrite (proj2 (Z.eqb_eq _ _) Hid), (proj2 (Z.leb_le _ _) Hfrom),
    (proj2 (Z.leb_le _ _) Hto), (bool_decide_eq_true_2 _ Hst). done.
Qed.

End EngineMore.

(** ** The single-calendar check *)

Section SingleCalendarProps.
Context `{M : MomentTz}.

Lemma getCalendar_Some db calendarId calendar :
  getCalendar db calendarId = Some calendar ->
  In calendar (calendars_table db) /\ cal_id calendar = calendarId.
Proof.
  unfold getCalendar. destruct (calendars_select_ok db); [|done].
  destruct (List.filter _ _) as [|c [|c' l]] eqn:Hf; try done.
  intros [= ->].
  assert (Hin : In calendar (List.filter (fun cal => cal_id cal =? calendarId)
                                         (calendars_table db)))
    by (rewrite Hf; by left).
  apply filter_In in Hin as [Hin Hid]. split; [done|]. by apply Z.eqb_eq.
Qed.

(** A confirmed meeting of the calendar is among the rows the check counts,
    whatever the range, when neither runs backwards. *)
Lemma confirmed_meeting_is_counted db calendarId startTime endTime m :
  In m (meetings_table db) ->
  calendar_id m = calendarId ->
  status m = "confirmed" ->
  start_time m <= end_time m ->
  startTime <= endTime ->
  In m (List.filter (countedMeeting calendarId startTime endTime) (meetings_table db)).
Proof.
  intros Hin Hid Hst Hm Hrange.
  apply filter_In. split; [done|]. unfold countedMeeting.
  rewrite (proj2 (Z.eqb_eq _ _) Hid), (bool_decide_eq_true_2 _ Hst). simpl.
  apply orb_true_iff. rewrite !Z.leb_le. lia.
Qed.

(** X10. As soon as the calendar holds one confirmed meeting (whose start is
    not after its end), the single-calendar check refuses every range whose
    start is not after its end, wherever the meeting lies: the two
    comparisons of the query are joined by [or]. *)
Theorem any_confirmed_meeting_closes_the_calendar db calendarId startTime endTime m :
  In m (meetings_table db) ->
  calendar_id m = calendarId ->
  status m = "confirmed" ->
  start_time m <= end_time m ->
  startTime <= endTime ->
  isTimeSlotAvailable db calendarId startTime endTime = false.
Proof.
  intros Hin Hid Hst Hm Hrange. unfold isTimeSlotAvailable.
  destruct (getCalendar db calendarId) as [calendar|]; [|done].
  destruct (checkTimeAgainstAvailability _ _ _ _); simpl; [|done].
  destruct (meetings_select_ok db); [|done].
  apply bool_decide_eq_false. intros Hcount.
  apply length_zero_iff_nil in Hcount.
  pose proof (confirmed_meeting_is_counted db calendarId startTime endTime m
                Hin Hid Hst Hm Hrange) as Hcounted.
  by rewrite Hcount in Hcounted.
Qed.

(** X11. When the single-calendar check accepts a range, exactly one calendar
    has the given id, the evaluator accepts the range for it, both selects
    succeeded, and (for a range whose start is not after its end) no
    confirmed meeting of that calendar conflicts with the range by the rule
    of the group engine. *)
Theorem single_check_implies_group_rule db calendarId startTime endTime :
  isTimeSlotAvailable db calendarId startTime endTime = true ->
  exists calendar,
    getCalendar db calendarId = Some calendar
    /\ List.filter (fun cal => cal_id cal =? calendarId) (calendars_table db) = [calendar]
    /\ checkTimeAgainstAvailability startTime endTime
         (cal_availability calendar) (timezone (cal_users calendar)) = true
    /\ meetings_select_ok db = true
    /\ (startTime <= endTime ->
        forall m, In m (meetings_table db) ->
                  calendar_id m = cal_id calendar ->
                  status m = "confirmed" ->
                  ~ conflictRule {| slot_start := startTime; slot_end := endTime |} m).
Proof.
  unfold isTimeSlotAvailable. intros Hok.
  destruct (getCalendar db calendarId) as [calendar|] eqn:Hcal; [|done].
  exists calendar. split; [done|].
  destruct (getCalendar_Some _ _ _ Hcal) as [_ Hid].
  split.
  { unfold getCalendar in Hcal. destruct (calendars_select_ok db); [|done].
    destruct (List.filter _ _) as [|c [|c' l]]; congruence. }
  destruct (checkTimeAgainstAvailability _ _ _ _); simpl in Hok; [|done].
  split; [done|].
  destruct (meetings_select_ok db); [|done]. split; [done|].
  apply bool_decide_eq_true, length_zero_iff_nil in Hok.
  intros Hrange m Hin Hm Hst Hconf.
  assert (Hnot : ~ In m (List.filter (countedMeeting calendarId startTime endTime)
                                     (meetings_table db)))
    by (rewrite Hok; tauto).
  apply Hnot, filter_In. split; [done|]. unfold countedMeeting.
  rewrite Hm, Hid, Z.eqb_refl, (bool_decide_eq_true_2 _ Hst). simpl.
  apply orb_true_iff. rewrite !Z.leb_le.
  unfold conflictRule in Hconf. simpl in Hconf. lia.
Qed.

End SingleCalendarProps.

(** ** Booking a meeting and asking the engine again *)

Section Booking.
Context `{M : MomentTz}.

Lemma forallb_and_const {A} (f : A -> bool) (g : A -> bool) (b : bool) (l : list A) :
  (forall x, In x l -> g x = b \/ g x = true) ->
  (exists x, In x l /\ g x = b) ->
  forallb (fun x => f x && g x) l = forallb f l && b.
Proof.
  intros Hg [x0 [Hx0 Hb]].
  destruct b.
  - rewrite andb_true_r. apply forallb_agree. intros x Hx.
    destruct (Hg x Hx) as [-> | ->]; apply andb_true_r.
  - rewrite andb_false_r. apply not_true_iff_false. rewrite forallb_forall.
    intros H. specialize (H x0 Hx0). rewrite Hb, andb_false_r in H. done.
Qed.

Lemma filter_andb {A} (f g : A -> bool) (l : list A) :
  List.filter (fun x => f x && g x) l = List.filter g (List.filter f l).
Proof.
  induction l as [|x l IH]; [done|]. simpl.
  destruct (f x); simpl; [|done]. destruct (g x); by rewrite IH.
Qed.

(** X12. Booking a confirmed meeting, inside the queried window, on the last
    calendar of a requested owner removes from the engine's answer exactly
    the slots that conflict with the meeting (overlap, same start or same
    end) and keeps the others in their order. *)
Theorem booking_removes_the_conflicting_slots
    db (userIds : list string) startDate endDate duration slots u c m :
  findGroupAvailability db userIds startDate endDate duration = Returned slots ->
  u ∈ userIds ->
  ownerCalendar (calendars_table db) u = Some c ->
  calendar_id m = cal_id c ->
  status m = "confirmed" ->
  startDate * MS_PER_DAY <= end_time m ->
  start_time m <= endDate * MS_PER_DAY + 86399000 ->
  findGroupAvailability (addMeeting m db) userIds startDate endDate duration
  = Returned (List.filter (fun slot => negb (meetingConflict slot m)) slots).
Proof.
  intros Hret Hu Hc Hid Hst Hfrom Hto.
  destruct (calendars_select_ok db) eqn:Hok.
  2:{ unfold findGroupAvailability, selectCalendars in *. simpl.
      rewrite Hok in *. injection Hret as <-. done. }
  set (calendars := List.filter
                      (fun cal => bool_decide (user_id (cal_users cal) ∈ userIds))
                      (calendars_table db)).
  assert (Hsel : selectCalendars db userIds = Rows calendars)
    by (unfold selectCalendars; by rewrite Hok).
  assert (Hcid : cal_id c ∈ map cal_id calendars)
    by (by apply (ownerCalendar_id_selected db userIds u c)).
  assert (Hnonempty : calendars <> []).
  { intros Hnil. rewrite Hnil in Hcid. by apply not_elem_of_nil in Hcid. }
  destruct (meetings_select_ok db) eqn:Hmok.
  2:{ assert (Hthrow : findGroupAvailability db userIds startDate endDate duration = Threw).
      { apply engine_throws_iff. split; [by exists calendars|done]. }
      congruence. }
  set (selected := fun m' =>
         bool_decide (calendar_id m' ∈ map cal_id calendars)
         && (startDate * MS_PER_DAY <=? end_time m')
         && (start_time m' <=? endDate * MS_PER_DAY + 86399000)
         && bool_decide (status m' = "confirmed")).
  assert (Hms : selectMeetings db (map cal_id calendars) startDate endDate
                = Rows (List.filter selected (meetings_table db)))
    by (unfold selectMeetings; by rewrite Hmok).
  assert (Hm : selected m = true).
  { unfold selected. rewrite bool_decide_eq_true_2 by by rewrite Hid.
    by rewrite (proj2 (Z.leb_le _ _) Hfrom), (proj2 (Z.leb_le _ _) Hto),
         (bool_decide_eq_true_2 _ Hst). }
  assert (Hms' : selectMeetings (addMeeting m db) (map cal_id calendars) startDate endDate
                 = Rows (m :: List.filter selected (meetings_table db))).
  { change (selectMeetings (addMeeting m db) (map cal_id calendars) startDate endDate)
      with (if meetings_select_ok db
            then Rows (List.filter selected (m :: meetings_table db)) else Failed).
    rewrite Hmok. cbn [List.filter]. by rewrite Hm. }
  destruct (engine_returns db userIds startDate endDate duration calendars _
              Hsel Hnonempty Hms) as (ts & Hgen & Heq).
  destruct (engine_returns (addMeeting m db) userIds startDate endDate duration calendars _
              Hsel Hnonempty Hms') as (ts' & Hgen' & Heq').
  assert (ts' = ts) as -> by congruence.
  rewrite Heq in Hret. injection Hret as <-. rewrite Heq'. f_equal.
  rewrite <- filter_andb. apply filter_ext. intros slot.
  set (ms := List.filter selected (meetings_table db)).
  transitivity
    (forallb (fun u' => ownerRule calendars ms slot u'
                        && match ownerCalendar calendars u' with
                           | Some c' =>
                               if calendar_id m =? cal_id c'
                               then negb (meetingConflict slot m) else true
                           | None => true
                           end) userIds).
  { apply forallb_agree. intros u' _. unfold ownerRule.
    destruct (ownerCalendar calendars u') as [c'|]; [|done].
    unfold meetingsOn, hasConflict. simpl.
    destruct (calendar_id m =? cal_id c'); simpl.
    - destruct (checkTimeAgainstAvailability _ _ _ _); simpl; [|done].
      by rewrite negb_orb, andb_comm.
    - by rewrite andb_true_r. }
  apply forallb_and_const.
  - intros u' _. destruct (ownerCalendar calendars u') as [c'|]; [|by right].
    destruct (calendar_id m =? cal_id c'); [by left|by right].
  - exists u. split; [by apply list_elem_of_In|].
    unfold calendars. rewrite (ownerCalendar_selected _ _ _ Hu), Hc.
    by rewrite (proj2 (Z.eqb_eq _ _) Hid).
Qed.

End Booking.

(** ** Scheduling one meeting *)

Section ScheduleProps.
Context `{M : MomentTz}.
Variable parseInt10 : string -> option Z.

(** X13. When the meeting form is accepted, the duration read from the form
    is positive and the pending entry of the submitting user, and of no one
    else, now carries the start and the calendar it had. When the end, that
    many minutes after the start, is an instant a [Date] holds, the entry
    carries it too, and the start is before it; when it is not, the form is
    confirmed all the same and the entry carries a null end. On every other
    reply the pending meetings are left as they were. *)
Theorem meeting_form_outcome
    pendingMeetings user userId dateStr startTimeStr durationStr reply pendingMeetings' :
  processMeetingDetailsForm parseInt10 pendingMeetings user userId
    dateStr startTimeStr durationStr = (reply, pendingMeetings') ->
  match reply with
  | ConfirmMeeting startTime endTime duration =>
      parseInt10 durationStr = Some duration
      /\ 0 < duration
      /\ endTime = startTime + duration * MS_PER_MINUTE
      /\ startTime < endTime
      /\ validDate endTime = true
      /\ (exists old,
            pendingMeetings !! userId = Some old
            /\ pendingMeetings' !! userId
               = Some {| md_calendarId := md_calendarId old;
                         md_startTime := Some startTime;
                         md_endTime := Some endTime |})
      /\ (forall other, other <> userId ->
            pendingMeetings' !! other = pendingMeetings !! other)
  | ConfirmMeetingNoEnd startTime duration =>
      parseInt10 durationStr = Some duration
      /\ 0 < duration
      /\ validDate (startTime + duration * MS_PER_MINUTE) = false
      /\ (exists old,
            pendingMeetings !! userId = Some old
            /\ pendingMeetings' !! userId
               = Some {| md_calendarId := md_calendarId old;
                         md_startTime := Some startTime;
                         md_endTime := None |})
      /\ (forall other, other <> userId ->
            pendingMeetings' !! other = pendingMeetings !! other)
  | _ => pendingMeetings' = pendingMeetings
  end.
Proof.
  unfold processMeetingDetailsForm. intros Hform.
  destruct user as [row|]; [|by injection Hform as <- <-].
  destruct (pendingMeetings !! userId) as [old|] eqn:Hold;
    [|by injection Hform as <- <-].
  destruct (momentTzParseText _ _ _) as [startDateTime|];
    [|by injection Hform as <- <-].
  destruct (parseInt10 durationStr) as [duration|] eqn:Hdur;
    [|by injection Hform as <- <-].
  destruct (Z.leb_spec duration 0) as [Hle|Hpos]; [by injection Hform as <- <-|].
  unfold addMinutes in Hform.
  destruct (validDate (startDateTime + duration * MS_PER_MINUTE)) eqn:Hvalid;
    injection Hform as <- <-.
  - split; [done|]. split; [done|]. split; [done|].
    split; [unfold MS_PER_MINUTE; lia|]. split; [done|].
    split.
    + exists old. split; [done|]. apply lookup_insert_eq.
    + intros other Hother. by apply lookup_insert_ne.
  - split; [done|]. split; [done|]. split; [done|].
    split.
    + exists old. split; [done|]. apply lookup_insert_eq.
    + intros other Hother. by apply lookup_insert_ne.
Qed.

(** X14. A meeting that went through the form and was confirmed is stored
    as one new confirmed row on the pending calendar with the start and end
    of the form; the rows that were there stay, the pending entry is
    forgotten, and from then on the single-calendar check refuses every
    range (with start not after end) on that calendar. *)
Theorem scheduled_meeting_closes_its_calendar
    db pendingMeetings user userId dateStr startTimeStr durationStr
    startTime endTime duration pendingMeetings' old db' pendingMeetings'' :
  processMeetingDetailsForm parseInt10 pendingMeetings user userId
    dateStr startTimeStr durationStr
  = (ConfirmMeeting startTime endTime duration, pendingMeetings') ->
  pendingMeetings !! userId = Some old ->
  collectMeetingButton true true db pendingMeetings' userId
    (md_calendarId old) startTime endTime = (db', pendingMeetings'') ->
  meetings_table db'
  = {| calendar_id := md_calendarId old; start_time := startTime;
       end_time := endTime; status := "confirmed" |} :: meetings_table db
  /\ calendars_table db' = calendars_table db
  /\ startTime < endTime
  /\ pendingMeetings'' !! userId = None
  /\ forall from to, from <= to ->
       isTimeSlotAvailable db' (md_calendarId old) from to = false.
Proof.
  intros Hform Hold Hbutton.
  assert (Hlt : startTime < endTime).
  { unfold processMeetingDetailsForm in Hform.
    destruct user as [row|]; [|done]. rewrite Hold in Hform.
    destruct (momentTzParseText _ _ _) as [startDateTime|]; [|done].
    destruct (parseInt10 durationStr) as [minutes|]; [|done].
    destruct (Z.leb_spec minutes 0); [done|].
    unfold addMinutes in Hform.
    destruct (validDate (startDateTime + minutes * MS_PER_MINUTE)); [|done].
    injection Hform as <- <- <- _. unfold MS_PER_MINUTE. lia. }
  unfold collectMeetingButton, createMeeting in Hbutton.
  injection Hbutton as <- <-.
  set (m := {| calendar_id := md_calendarId old; start_time := startTime;
               end_time := endTime; status := "confirmed" |}).
  set (db' := {| calendars_table := calendars_table db;
                 meetings_table := m :: meetings_table db;
                 calendars_select_ok := calendars_select_ok db;
                 meetings_select_ok := meetings_select_ok db |}).
  split; [done|]. split; [done|]. split; [done|].
  split; [apply lookup_delete_eq|].
  intros from to Hrange. unfold isTimeSlotAvailable.
  destruct (getCalendar db' (md_calendarId old)) as [calendar|]; [|done].
  destruct (checkTimeAgainstAvailability _ _ _ _); [|done].
  cbn [negb]. destruct (meetings_select_ok db'); [|done].
  apply bool_decide_eq_false. intros Hcount. apply length_zero_iff_nil in Hcount.
  assert (Hcounted : In m (List.filter (countedMeeting (md_calendarId old) from to)
                                       (meetings_table db'))).
  { apply confirmed_meeting_is_counted; [by left|done|done|simpl; lia|done]. }
  by rewrite Hcount in Hcounted.
Qed.

End ScheduleProps.

(** ** The date-range form *)

Section DateRangeProps.
Context `{M : MomentTz}.

(** X15. The date-range form answers with the available times exactly when
    both texts parse, the end date is not before the start date (a range of
    one day is accepted) and the user has a pending session. It then writes
    the two dates into that session, keeping its title, duration and
    participants and every other user's session; on every other reply the
    pending sessions are left as they were. *)
Theorem date_range_form_outcome pending user startDateStr endDateStr :
  (forall startDate endDate,
      fst (processDateRangeForm pending user startDateStr endDateStr)
      = AvailableTimes startDate endDate
      <-> parseDate startDateStr = Some startDate
          /\ parseDate endDateStr = Some endDate
          /\ startDate <= endDate
          /\ is_Some (pending !! user))
  /\ match processDateRangeForm pending user startDateStr endDateStr with
     | (AvailableTimes startDate endDate, pending') =>
         (exists old,
             pending !! user = Some old
             /\ pending' !! user
                = Some {| gs_title := gs_title old;
                          gs_duration := gs_duration old;
                          gs_participants := gs_participants old;
                          gs_startDate := Some startDate;
                          gs_endDate := Some endDate |})
         /\ (forall other, other <> user -> pending' !! other = pending !! other)
     | (_, pending') => pending' = pending
     end.
Proof.
  unfold processDateRangeForm.
  destruct (parseDate startDateStr) as [s|]; [|split; [|done]].
  2:{ intros startDate endDate. simpl. split; [done|]. by intros [? _]. }
  destruct (parseDate endDateStr) as [e|]; [|split; [|done]].
  2:{ intros startDate endDate. simpl. split; [done|]. by intros (_ & ? & _). }
  simpl. destruct (Z.ltb_spec e s) as [Hlt|Hle]; [split; [|done]|].
  { intros startDate endDate. simpl. split; [done|].
    intros ([= <-] & [= <-] & ? & _). lia. }
  destruct (pending !! user) as [old|] eqn:Hold; simpl; [|split; [|done]].
  2:{ intros startDate endDate. split; [done|]. intros (_ & _ & _ & [? ?]). done. }
  split.
  - intros startDate endDate. split.
    + intros [= <- <-]. by split; [|split; [|split]].
    + by intros ([= <-] & [= <-] & _).
  - split.
    + exists old. split; [done|]. apply lookup_insert_eq.
    + intros other Hother. by apply lookup_insert_ne.
Qed.

End DateRangeProps.

(** ** Listing the upcoming meetings *)

Section MeetingsProps.
Variable toLowerCase : string -> string.
Variable getCalendarMeetings : Z -> option (list Meeting).

Lemma insertByStart_perm x l : insertByStart x l ≡ₚ x :: l.
Proof.
  induction l as [|y l IH]; [done|]. simpl.
  destruct (lm_start x <=? lm_start y); [done|].
  rewrite IH. apply Permutation_swap.
Qed.

Lemma sortByStart_perm l : sortByStart l ≡ₚ l.
Proof.
  induction l as [|x l IH]; [done|]. simpl.
  rewrite insertByStart_perm. by rewrite IH.
Qed.

Lemma insertByStart_sorted x l :
  StronglySorted byStart l -> StronglySorted byStart (insertByStart x l).
Proof.
  induction 1 as [|y l Hl IH Hy]; simpl; [repeat constructor|].
  destruct (Z.leb_spec (lm_start x) (lm_start y)) as [Hle|Hgt].
  - constructor; [by constructor|]. constructor; [done|].
    eapply Forall_impl; [exact Hy|]. unfold byStart. intros z Hz. lia.
  - constructor; [done|].
    rewrite insertByStart_perm. constructor; [unfold byStart; lia|done].
Qed.

Lemma sortByStart_sorted l : StronglySorted byStart (sortByStart l).
Proof.
  induction l as [|x l IH]; simpl; [constructor|]. by apply insertByStart_sorted.
Qed.

(** The sort leaves a list that is already in order as it is. *)
Lemma sortByStart_sorted_id l : StronglySorted byStart l -> sortByStart l = l.
Proof.
  induction 1 as [|x l Hl IH Hx]; [done|]. simpl. rewrite IH.
  destruct l as [|y l]; [done|]. simpl.
  apply Forall_cons in Hx as [Hxy _]. unfold byStart in Hxy.
  by rewrite (proj2 (Z.leb_le _ _) Hxy).
Qed.

Lemma collectMeetings_In calendars allMeetings x :
  collectMeetings getCalendarMeetings calendars = Some allMeetings ->
  In x allMeetings
  <-> exists calendar meetings,
        In calendar calendars
        /\ getCalendarMeetings (uc_id calendar) = Some meetings
        /\ In (lm_meeting x) meetings
        /\ lm_calendarName x = uc_name calendar.
Proof.
  revert allMeetings. induction calendars as [|calendar rest IH]; intros allMeetings.
  { intros [= <-]. split; [done|]. by intros (? & ? & [] & _). }
  simpl. destruct (getCalendarMeetings (uc_id calendar)) as [meetings|] eqn:Hm; [|done].
  destruct (collectMeetings getCalendarMeetings rest) as [more|]; [|done].
  intros [= <-]. rewrite in_app_iff, in_map_iff, (IH more eq_refl). split.
  - intros [(m & <- & Hin) | (c & ms & Hc & Hms & Hin & Hname)].
    + exists calendar, meetings. simpl. by split; [left|].
    + exists c, ms. by split; [right|].
  - intros (c & ms & [<- | Hc] & Hms & Hin & Hname).
    + left. exists (lm_meeting x). split; [|congruence].
      destruct x as [m n]. simpl in *. by rewrite Hname.
    + right. by exists c, ms.
Qed.

(** X16. When [listMeetings] lists meetings, the meetings it shows followed
    by those it leaves out are, in ascending order of start, exactly the
    meetings of the (named) calendars that start at or after [now]; it shows
    the first ten of them or all if there are fewer, announces their full
    number, and adds the note exactly when more than ten exist. Each one
    carries the name of the calendar it was read from. *)
Theorem listed_meetings_are_the_earliest_upcoming
    calendars calendarOption now shown total note :
  listMeetings toLowerCase getCalendarMeetings calendars calendarOption now
  = UpcomingMeetings shown total note ->
  exists filteredCalendars allMeetings hidden,
    filteredCalendars
    = match truthy calendarOption with
      | Some name =>
          List.filter
            (fun cal => bool_decide (toLowerCase (uc_name cal) = toLowerCase name))
            calendars
      | None => calendars
      end
    /\ collectMeetings getCalendarMeetings filteredCalendars = Some allMeetings
    /\ shown ++ hidden
       ≡ₚ List.filter (fun meeting => now <=? lm_start meeting) allMeetings
    /\ StronglySorted byStart (shown ++ hidden)
    /\ total = length (shown ++ hidden)
    /\ length shown = Nat.min 10 total
    /\ (0 < total)%nat
    /\ (note = true <-> (10 < total)%nat)
    /\ forall x, In x (shown ++ hidden) ->
         now <= lm_start x
         /\ exists calendar meetings,
              In calendar filteredCalendars
              /\ getCalendarMeetings (uc_id calendar) = Some meetings
              /\ In (lm_meeting x) meetings
              /\ lm_calendarName x = uc_name calendar.
Proof.
  unfold listMeetings.
  set (filteredCalendars := match truthy calendarOption with
                            | Some name => List.filter _ calendars
                            | None => calendars
                            end).
  destruct (bool_decide (is_Some (truthy calendarOption))
            && bool_decide (filteredCalendars = [])); [done|].
  destruct (collectMeetings getCalendarMeetings filteredCalendars)
    as [allMeetings|] eqn:Hall; [|done].
  set (upcoming := sortByStart
                     (List.filter (fun meeting => now <=? lm_start meeting) allMeetings)).
  case_bool_decide as Hnil; [done|]. intros [= <- <- <-].
  exists filteredCalendars, allMeetings, (drop 10 upcoming).
  rewrite take_drop.
  split; [done|]. split; [done|].
  split; [apply sortByStart_perm|].
  split; [apply sortByStart_sorted|].
  split; [done|].
  split; [by rewrite length_take|].
  split; [destruct upcoming; [done|simpl; lia]|].
  split; [apply bool_decide_eq_true|].
  intros x Hx.
  assert (Hin : In x (List.filter (fun meeting => now <=? lm_start meeting) allMeetings)).
  { apply list_elem_of_In. rewrite <- (sortByStart_perm _). by apply list_elem_of_In. }
  apply filter_In in Hin as [Hin Hnow].
  split; [by apply Z.leb_le|].
  by apply (collectMeetings_In _ _ _ Hall).
Qed.

End MeetingsProps.

(** ** Reminders *)

Section RemindersProps.

Lemma markSent_ids id table : map rm_id (markSent id table) = map rm_id table.
Proof.
  unfold markSent. rewrite map_map. apply map_ext. intros row.
  by destruct (rm_id row =? id).
Qed.

Lemma markAll_ids ids table : map rm_id (markAll ids table) = map rm_id table.
Proof.
  unfold markAll. revert table. induction ids as [|id ids IH]; intros table; [done|].
  simpl. by rewrite IH, markSent_ids.
Qed.

(** The table after the updates, row by row. *)
Lemma markAll_rows ids table :
  markAll ids table
  = map (fun row =>
           if bool_decide (rm_id row ∈ ids)
           then {| rm_id := rm_id row; rm_meeting := rm_meeting row;
                   rm_reminder_sent := true; rm_owner := rm_owner row |}
           else row)
        table.
Proof.
  unfold markAll. revert table. induction ids as [|id ids IH]; intros table.
  { cbn [foldl]. symmetry. rewrite <- (map_id table) at 2. apply map_ext. intros row.
    case_bool_decide as Hin; [by apply not_elem_of_nil in Hin|done]. }
  simpl. rewrite IH. unfold markSent. rewrite map_map. apply map_ext. intros row.
  destruct (Z.eqb_spec (rm_id row) id) as [Heq|Hne]; simpl.
  - rewrite (bool_decide_eq_true_2 (rm_id row ∈ id :: ids))
      by (rewrite Heq; apply list_elem_of_here).
    by destruct (bool_decide (rm_id row ∈ ids)).
  - destruct (bool_decide (rm_id row ∈ ids)) eqn:Hin.
    + apply bool_decide_eq_true in Hin.
      by rewrite bool_decide_eq_true_2 by by apply list_elem_of_further.
    + apply bool_decide_eq_false in Hin.
      rewrite bool_decide_eq_false_2; [done|].
      intros Hin'. apply elem_of_cons in Hin' as [?|?]; done.
Qed.

(** The loop, in closed form: the messages delivered are appended in order,
    and the table receives the updates that are applied. *)
Lemma remindAll_closed dm_ok update_ok meetings sent table :
  remindAll dm_ok update_ok meetings sent table
  = (sent ++ delivered dm_ok meetings,
     markAll (List.filter update_ok (map snd (delivered dm_ok meetings))) table).
Proof.
  revert sent table. induction meetings as [|meeting rest IH]; intros sent table.
  { simpl. by rewrite app_nil_r. }
  simpl. unfold delivered. simpl. fold (delivered dm_ok rest).
  destruct (rm_owner meeting) as [owner|]; [|apply IH].
  destruct (dm_ok (user_id owner)); [|apply IH].
  rewrite IH, <- app_assoc. simpl. f_equal.
  by destruct (update_ok (rm_id meeting)).
Qed.

Lemma delivered_In dm_ok meetings u id :
  In (u, id) (delivered dm_ok meetings)
  <-> exists meeting owner,
        In meeting meetings /\ rm_id meeting = id
        /\ rm_owner meeting = Some owner /\ user_id owner = u
        /\ dm_ok u = true.
Proof.
  unfold delivered. rewrite <- list_elem_of_In, list_elem_of_omap. split.
  - intros (meeting & Hin & Hsome). apply list_elem_of_In in Hin.
    destruct (rm_owner meeting) as [owner|] eqn:Ho; [|done].
    destruct (dm_ok (user_id owner)) eqn:Hdm; [|done].
    injection Hsome as <- <-. by exists meeting, owner.
  - intros (meeting & owner & Hin & <- & Ho & <- & Hdm).
    exists meeting. split; [by apply list_elem_of_In|]. by rewrite Ho, Hdm.
Qed.

Lemma delivered_ids_NoDup dm_ok meetings :
  NoDup (map rm_id meetings) -> NoDup (map snd (delivered dm_ok meetings)).
Proof.
  induction meetings as [|meeting rest IH]; [constructor|].
  simpl. intros Hnd. apply NoDup_cons in Hnd as [Hnotin Hnd].
  unfold delivered. simpl. fold (delivered dm_ok rest).
  destruct (rm_owner meeting) as [owner|]; [|by apply IH].
  destruct (dm_ok (user_id owner)); [|by apply IH].
  simpl. apply NoDup_cons. split; [|by apply IH].
  intros Hin. apply Hnotin. apply list_elem_of_In in Hin. apply list_elem_of_In.
  apply in_map_iff in Hin as ([u id] & Hid & Hin). simpl in Hid. subst id.
  apply delivered_In in Hin as (m & _ & Hm & <- & _).
  apply in_map_iff. by exists m.
Qed.

Lemma filter_ids_NoDup (table : list ReminderRow) (f : ReminderRow -> bool) :
  NoDup (map rm_id table) -> NoDup (map rm_id (List.filter f table)).
Proof.
  induction table as [|row table IH]; [done|]. simpl.
  intros Hnd. apply NoDup_cons in Hnd as [Hnotin Hnd].
  destruct (f row); [|by apply IH]. simpl. apply NoDup_cons. split; [|by apply IH].
  intros Hin. apply Hnotin. apply list_elem_of_In in Hin. apply list_elem_of_In.
  apply in_map_iff in Hin as (r & Hr & Hin). apply filter_In in Hin as [Hin _].
  apply in_map_iff. by exists r.
Qed.

(** X17. One run of the reminder job, when its select succeeds, sends a
    message exactly for each meeting that is confirmed, has no reminder
    flagged, starts within the 30 minutes from [now] and has a joined user
    whose message goes through. It never adds, drops or reorders rows,
    changes nothing in a row but the flag, never clears a flag, and sets one
    only for a meeting whose message went through. When the select fails,
    nothing is sent and nothing changes. *)
Theorem reminder_run_is_sound dm_ok update_ok select_ok now table sent table' :
  checkUpcomingMeetings dm_ok update_ok select_ok now table = (sent, table') ->
  (select_ok = true ->
   forall u id,
     In (u, id) sent
     <-> exists row owner,
           In row table /\ rm_id row = id
           /\ rm_owner row = Some owner /\ user_id owner = u /\ dm_ok u = true
           /\ status (rm_meeting row) = "confirmed"
           /\ rm_reminder_sent row = false
           /\ now <= start_time (rm_meeting row) < now + 30 * 60 * 1000)
  /\ Forall2 sameButFlag table table'
  /\ (forall row', In row' table' -> rm_reminder_sent row' = true ->
        (exists row, In row table /\ rm_id row = rm_id row'
                     /\ rm_reminder_sent row = true)
        \/ In (rm_id row') (map snd sent))
  /\ (select_ok = false -> sent = [] /\ table' = table).
Proof.
  unfold checkUpcomingMeetings. destruct select_ok.
  2:{ intros [= <- <-]. split; [done|]. split.
      { apply Forall2_same_length_lookup_2; [done|].
        intros i x y Hx Hy. assert (x = y) as -> by congruence. by repeat split. }
      split; [|done]. intros row' Hin Hflag. left. by exists row'. }
  rewrite remindAll_closed. simpl. intros [= <- <-].
  split; [|split; [|split; [|done]]].
  - intros _ u id. rewrite delivered_In. split.
    + intros (row & owner & Hin & Hid & Ho & Hu & Hdm).
      apply filter_In in Hin as [Hin Hdue]. unfold dueForReminder in Hdue.
      apply andb_true_iff in Hdue as [Hdue Hlt]. apply andb_true_iff in Hdue as [Hdue Hle].
      apply andb_true_iff in Hdue as [Hst Hflag].
      exists row, owner. repeat split; try done.
      * by apply bool_decide_eq_true in Hst.
      * by apply negb_true_iff.
      * by apply Z.leb_le.
      * by apply Z.ltb_lt.
    + intros (row & owner & Hin & Hid & Ho & Hu & Hdm & Hst & Hflag & Hle & Hlt).
      exists row, owner. repeat split; try done.
      apply filter_In. split; [done|]. unfold dueForReminder.
      rewrite (bool_decide_eq_true_2 _ Hst), Hflag,
        (proj2 (Z.leb_le _ _) Hle), (proj2 (Z.ltb_lt _ _) Hlt). done.
  - rewrite markAll_rows. apply Forall2_fmap_r, Forall_Forall2_diag, Forall_forall.
    intros row _. unfold compose. case_bool_decide; by repeat split.
  - intros row' Hin Hflag. rewrite markAll_rows in Hin.
    apply in_map_iff in Hin as (row & <- & Hin).
    case_bool_decide as Hmarked.
    + right. simpl. apply list_elem_of_In in Hmarked.
      apply filter_In in Hmarked as [Hmarked _]. done.
    + left. by exists row.
Qed.

(** Runs of the job with every update applied: no meeting id is messaged
    twice, and every id messaged belongs to a row that was not flagged. *)
Lemma runTicks_no_duplicate ticks table sent table' :
  NoDup (map rm_id table) ->
  runTicks ticks table = (sent, table') ->
  NoDup (map snd sent)
  /\ forall id, In id (map snd sent) ->
       exists row, In row table /\ rm_id row = id /\ rm_reminder_sent row = false.
Proof.
  revert table sent table'. induction ticks as [|tick rest IH]; intros table sent table' Hnd.
  { intros [= <- <-]. split; [constructor|done]. }
  simpl. unfold checkUpcomingMeetings.
  destruct (tick_select_ok tick).
  2:{ destruct (runTicks rest table) as [later table2] eqn:Hrest.
      intros [= <- <-]. simpl. by apply (IH table later table2). }
  rewrite remindAll_closed. simpl.
  set (due := List.filter (dueForReminder (tick_now tick)) table).
  set (now_sent := delivered (tick_dm_ok tick) due).
  assert (Hall : List.filter (fun _ : Z => true) (map snd now_sent) = map snd now_sent).
  { induction (map snd now_sent) as [|x l IHl]; [done|]. simpl. by rewrite IHl. }
  rewrite Hall.
  destruct (runTicks rest (markAll (map snd now_sent) table)) as [later table2] eqn:Hrest.
  intros [= <- <-].
  destruct (IH _ _ _ ltac:(by rewrite markAll_ids) Hrest) as [Hlater Hunflagged].
  assert (Hnow : forall id, In id (map snd now_sent) ->
             exists row, In row table /\ rm_id row = id /\ rm_reminder_sent row = false).
  { intros id Hin. apply in_map_iff in Hin as ([u id'] & Hid & Hin). simpl in Hid. subst id'.
    apply delivered_In in Hin as (row & owner & Hin & Hrow & _).
    apply filter_In in Hin as [Hin Hdue]. exists row. split; [done|]. split; [done|].
    unfold dueForReminder in Hdue.
    apply andb_true_iff in Hdue as [Hdue _]. apply andb_true_iff in Hdue as [Hdue _].
    apply andb_true_iff in Hdue as [_ Hflag]. by apply negb_true_iff. }
  assert (Hthen : forall id, In id (map snd later) ->
             ~ In id (map snd now_sent)
             /\ exists row, In row table /\ rm_id row = id /\ rm_reminder_sent row = false).
  { intros id Hin. destruct (Hunflagged id Hin) as (row1 & Hin1 & Hid1 & Hflag1).
    rewrite markAll_rows in Hin1. apply in_map_iff in Hin1 as (row & Hrow & Hrin).
    case_bool_decide as Hmarked; subst row1; simpl in *; [done|].
    split; [|by exists row].
    intros Hin'. apply Hmarked. rewrite Hid1. by apply list_elem_of_In. }
  rewrite map_app. split.
  - apply NoDup_app. split; [|split; [|done]].
    + apply delivered_ids_NoDup, filter_ids_NoDup, Hnd.
    + intros id Hin Hin'. apply list_elem_of_In in Hin, Hin'.
      by destruct (Hthen id Hin') as [Hnot _].
  - intros id Hin. apply in_app_iff in Hin as [Hin|Hin]; [by apply Hnow|].
    by destruct (Hthen id Hin) as [_ ?].
Qed.

(** X18. With distinct meeting ids and every update applied, no meeting is
    reminded twice, whatever the instants of the runs and the outcomes of
    the selects and of the messages; and a meeting whose reminder is already
    flagged is never reminded. *)
Theorem no_meeting_is_reminded_twice ticks table sent table' :
  NoDup (map rm_id table) ->
  runTicks ticks table = (sent, table') ->
  NoDup (map snd sent)
  /\ forall row, In row table -> rm_reminder_sent row = true ->
       ~ In (rm_id row) (map snd sent).
Proof.
  intros Hnd Hrun.
  destruct (runTicks_no_duplicate _ _ _ _ Hnd Hrun) as [Hnodup Hunflagged].
  split; [done|]. intros row Hin Hflag Hsent.
  destruct (Hunflagged _ Hsent) as (row0 & Hin0 & Hid0 & Hflag0).
  assert (row0 = row); [|congruence].
  clear -Hnd Hin Hin0 Hid0.
  induction table as [|r table IH]; [done|].
  simpl in Hnd. apply NoDup_cons in Hnd as [Hnotin Hnd].
  assert (Hfresh : forall x, In x table -> rm_id x <> rm_id r).
  { intros x Hx Heq. apply Hnotin. rewrite <- Heq.
    apply list_elem_of_In, in_map, Hx. }
  destruct Hin as [<- | Hin], Hin0 as [<- | Hin0]; try done.
  - exfalso. by apply (Hfresh row0).
  - exfalso. apply (Hfresh row); [done|]. congruence.
  - by apply IH.
Qed.

End RemindersProps.

(** ** The evaluator and the generator together *)

Section Together.
Context `{M : MomentTz}.

(** X21. A range inside an accepted range is accepted, provided it starts
    on the same local date: shortening a meeting or moving its start later
    within the day never makes it unavailable. *)
Theorem inner_range_is_accepted availability timezone zone t0 t1 t0' t1' :
  checkTimeAgainstAvailability t0 t1 availability timezone = true ->
  truthy timezone = Some zone ->
  localDate zone t0' = localDate zone t0 ->
  t0 <= t0' ->
  t1' <= t1 ->
  checkTimeAgainstAvailability t0' t1' availability timezone = true.
Proof.
  intros Hcheck Hz Hdate Hstart Hend.
  destruct (check_true_inv _ _ _ _ Hcheck)
    as (avail & zone' & w & s & e & opening & closing
        & -> & Hz' & Hw & Hav & Hs & He & Ho & Hc & Hle1 & Hle2).
  assert (zone' = zone) as -> by congruence.
  assert (Hday : localDay zone t0' = localDay zone t0)
    by (unfold localDay; by rewrite Hdate).
  rewrite (check_open_window avail timezone zone w s e t0' t1' Hz).
  - rewrite Hdate, Ho, Hc. simpl. apply andb_true_iff. rewrite !Z.leb_le. lia.
  - rewrite windowFor_eq, Hday. by rewrite <- windowFor_eq.
  - by rewrite Hday.
  - done.
  - done.
Qed.

(** X19. In a zone whose wall clock is never set back and reads back the
    instants that [moment.tz] builds, and for a window whose end time parses
    to a minute of the day, a range that the evaluator accepts ends on the
    local date on which it starts: no accepted range runs past local midnight
    into another day class. *)
Theorem accepted_range_stays_on_one_day
    avail timezone zone w e minutes t0 t1 :
  checkTimeAgainstAvailability t0 t1 (Some avail) timezone = true ->
  truthy timezone = Some zone ->
  windowFor avail zone t0 = Some w ->
  truthy (win_end w) = Some e ->
  parseClock e = Some minutes ->
  minutes < 1440 ->
  t0 <= t1 ->
  (forall a b, a <= b -> localWall zone a <= localWall zone b) ->
  localWall zone (wallClock zone (wallTime (localDate zone t0) minutes))
  = wallTime (localDate zone t0) minutes ->
  localDate zone t1 = localDate zone t0
  /\ isWeekendDay (localDay zone t1) = isWeekendDay (localDay zone t0).
Proof.
  intros Hcheck Hz Hw He Hparse Hmin Hrange Hmono Hback.
  destruct (check_true_inv _ _ _ _ Hcheck)
    as (avail' & zone' & w' & s' & e' & opening & closing
        & Ha & Hz' & Hw' & _ & _ & He' & _ & Hclosing & _ & Hle).
  assert (avail' = avail) as -> by congruence.
  assert (zone' = zone) as -> by congruence.
  assert (w' = w) as -> by congruence.
  assert (e' = e) as -> by congruence.
  unfold momentTzParse in Hclosing. rewrite Hparse in Hclosing.
  injection Hclosing as <-.
  assert (Hsame : localDate zone t1 = localDate zone t0); [|unfold localDay; by rewrite Hsame].
  pose proof (Hmono _ _ Hle) as Hup. rewrite Hback in Hup.
  pose proof (Hmono _ _ Hrange) as Hlow.
  unfold localDate, dayNumber, wallTime in *.
  assert (HD : 0 < MS_PER_DAY) by (unfold MS_PER_DAY; lia).
  pose proof (Z.mul_div_le (localWall zone t0) MS_PER_DAY HD) as Hfloor.
  symmetry. apply Z.div_unique with (r := localWall zone t1
                                           - MS_PER_DAY * (localWall zone t0 / MS_PER_DAY)).
  - left. unfold MS_PER_DAY, MS_PER_MINUTE in *. lia.
  - lia.
Qed.

(** X20. Whatever the owners' windows are, every slot the engine returns is
    a step point of the generator: it starts at 09:00 of the process's zone
    plus a positive number of 30-minute steps, on a day of the range, lasts
    the requested duration and ends by 17:00 of that day. *)
Theorem returned_slots_keep_business_hours
    db (userIds : list string) startDate endDate duration slots slot :
  findGroupAvailability db userIds startDate endDate duration = Returned slots ->
  In slot slots ->
  exists day k,
    startDate <= day <= endDate /\ 1 <= k
    /\ slot_start slot = dayStartOf day + k * stepMs
    /\ slot_end slot = slot_start slot + duration * MS_PER_MINUTE
    /\ slot_end slot <= dayEndOf day.
Proof.
  intros Hret Hin.
  assert (Hgen : exists timeSlots,
             generateTimeSlots startDate endDate duration = Some timeSlots
             /\ In slot timeSlots).
  { unfold findGroupAvailability in Hret.
    destruct (selectCalendars db userIds) as [calendars|];
      [|injection Hret as <-; done].
    destruct (decide (calendars = [])); [injection Hret as <-; done|].
    destruct (selectMeetings _ _ _ _) as [meetings|]; [|done].
    destruct (generateTimeSlots startDate endDate duration) as [ts|]; [|done].
    injection Hret as <-. apply filter_In in Hin as [Hin _]. by exists ts. }
  destruct Hgen as (ts & Hts & Hin').
  destruct (dayLoop_sound _ _ _ _ _ _ Hts Hin') as (day & today & Hday & Htoday & Hin'').
  destruct (slotLoop_sound _ _ _ _ _ _ Htoday Hin'') as ((k & Hk & Hs) & He & _ & Hle).
  by exists day, k.
Qed.

End Together.

(** ** Closed instances of the further properties *)

(** Witness of X2: Monday 2024-01-01, 30 minutes, 09:00 and 17:00 eight hours
    apart: one day times fifteen slots. *)
Lemma generated_slot_count_witness :
  length (map (halfHour 19723) stepPoints) = 15%nat.
Proof.
  destruct (@generated_slot_count FixedOffsets 19723 19723 30 28800000
              (map (halfHour 19723) stepPoints)) as [Hlen _].
  - vm_compute. reflexivity.
  - vm_compute. discriminate.
  - intros day _. unfold dayEndOf, dayStartOf, wallTime. simpl.
    unfold MS_PER_DAY, MS_PER_MINUTE. lia.
  - rewrite Hlen. vm_compute. reflexivity.
Defined.

(** Witness of X3: Monday, then Tuesday, and the two days at once. *)
Lemma generated_slots_of_adjacent_ranges_witness :
  exists first second,
    @generateTimeSlots FixedOffsets 19723 19723 30 = Some first
    /\ @generateTimeSlots FixedOffsets 19724 19724 30 = Some second
    /\ @generateTimeSlots FixedOffsets 19723 19724 30 = Some (first ++ second).
Proof.
  apply (@generated_slots_of_adjacent_ranges FixedOffsets 19723 19723 19724 30).
  - vm_compute. discriminate.
  - vm_compute. discriminate.
Defined.

(** Witness of X4: the slots of Monday 2024-01-01 in UTC. *)
Lemma generated_slots_ascend_witness :
  StronglySorted (fun a b => slot_start a < slot_start b)
    (map (halfHour 19723) stepPoints)
  /\ NoDup (map (halfHour 19723) stepPoints).
Proof.
  apply (@generated_slots_ascend FixedOffsets 19723 19723 30).
  - intros d1 d2 Hlt. unfold dayEndOf, dayStartOf, wallTime. simpl.
    unfold MS_PER_DAY, MS_PER_MINUTE. lia.
  - vm_compute. reflexivity.
Defined.

(** Witness of X5: alice named twice. *)
Lemma owner_list_is_read_as_a_set_witness :
  @findGroupAvailability FixedOffsets bookedMonday ["alice"; "alice"] 19723 19723 30
  = @findGroupAvailability FixedOffsets bookedMonday ["alice"] 19723 19723 30.
Proof.
  apply (@owner_list_is_read_as_a_set FixedOffsets bookedMonday
           ["alice"; "alice"] ["alice"] 19723 19723 30).
  intros u. rewrite !elem_of_cons. tauto.
Defined.

(** Witness of X6: the slot at 09:30 is returned for alice and carol, and
    for alice alone. *)
Lemma more_owners_never_add_slots_witness :
  In (halfHour 19723 570) (map (halfHour 19723) freeStepPoints).
Proof.
  eapply (@more_owners_never_add_slots FixedOffsets aliceAndCarol
            ["alice"] ["carol"] 19723 19723 30).
  - discriminate.
  - vm_compute. reflexivity.
  - vm_compute. reflexivity.
  - vm_compute. left. reflexivity.
Defined.

(** Witness of X7: a tentative meeting from 10:00 to 11:00. *)
Lemma unselected_meetings_never_block_witness :
  @findGroupAvailability FixedOffsets (addMeeting tentativeMeeting emptyMonday)
    ["alice"] 19723 19723 30
  = @findGroupAvailability FixedOffsets emptyMonday ["alice"] 19723 19723 30.
Proof.
  apply (@unselected_meetings_never_block FixedOffsets emptyMonday ["alice"]
           19723 19723 30 tentativeMeeting).
  left. simpl. discriminate.
Defined.

(** Witness of X8: dave has no calendar. *)
Lemma owner_without_calendar_blocks_all_witness :
  exists slots,
    @findGroupAvailability FixedOffsets bookedMonday ["alice"; "dave"] 19723 19723 30
    = Returned slots
    /\ slots = [].
Proof.
  eexists. split; [vm_compute; reflexivity|].
  apply (@owner_without_calendar_blocks_all FixedOffsets bookedMonday
           ["alice"; "dave"] 19723 19723 30 "dave").
  - rewrite !elem_of_cons. tauto.
  - intros c [<- | []]. simpl. discriminate.
  - vm_compute. reflexivity.
Defined.

(** Witness of X9: alice and the slot at 09:30 of the booked Monday. *)
Lemma returned_slots_are_free_witness :
  exists timeSlots,
    @generateTimeSlots FixedOffsets 19723 19723 30 = Some timeSlots
    /\ In (halfHour 19723 570) timeSlots.
Proof.
  eapply (@returned_slots_are_free FixedOffsets bookedMonday ["alice"]
            19723 19723 30 _ (halfHour 19723 570) "alice").
  - vm_compute. reflexivity.
  - vm_compute. left. reflexivity.
  - rewrite !elem_of_cons. tauto.
Defined.

(** Witness of X10: with the booking from 10:00 to 11:00, the range from
    14:00 to 14:30 is refused. *)
Lemma any_confirmed_meeting_closes_the_calendar_witness :
  @isTimeSlotAvailable FixedOffsets bookedMonday 1 (utc 19723 840) (utc 19723 870) = false.
Proof.
  apply (@any_confirmed_meeting_closes_the_calendar FixedOffsets bookedMonday 1
           (utc 19723 840) (utc 19723 870) (booking 1 19723 600 660)).
  - simpl. left. reflexivity.
  - reflexivity.
  - reflexivity.
  - vm_compute. discriminate.
  - vm_compute. discriminate.
Defined.

(** Witness of X11: without any meeting the same range is accepted. *)
Lemma single_check_implies_group_rule_witness :
  exists calendar,
    getCalendar emptyMonday 1 = Some calendar
    /\ @checkTimeAgainstAvailability FixedOffsets (utc 19723 840) (utc 19723 870)
         (cal_availability calendar) (timezone (cal_users calendar)) = true.
Proof.
  destruct (@single_check_implies_group_rule FixedOffsets emptyMonday 1
              (utc 19723 840) (utc 19723 870)) as (calendar & Hcal & _ & Hcheck & _).
  - vm_compute. reflexivity.
  - exists calendar. split; [exact Hcal|exact Hcheck].
Defined.

(** Witness of X12: booking 10:00 to 11:00 on alice's empty Monday. *)
Lemma booking_removes_the_conflicting_slots_witness :
  @findGroupAvailability FixedOffsets (addMeeting (booking 1 19723 600 660) emptyMonday)
    ["alice"] 19723 19723 30
  = Returned (List.filter
                (fun slot => negb (meetingConflict slot (booking 1 19723 600 660)))
                (map (halfHour 19723) stepPoints)).
Proof.
  apply (@booking_removes_the_conflicting_slots FixedOffsets emptyMonday ["alice"]
           19723 19723 30 (map (halfHour 19723) stepPoints) "alice" aliceWork).
  - vm_compute. reflexivity.
  - rewrite !elem_of_cons. tauto.
  - vm_compute. reflexivity.
  - reflexivity.
  - reflexivity.
  - vm_compute. discriminate.
  - vm_compute. discriminate.
Defined.

(** Witness of X13: alice asks for 2024-01-01, 2:00 PM, 45 minutes. *)
Lemma meeting_form_outcome_witness :
  FixedJs.parseInt10 "45" = Some 45
  /\ utc 19723 885 = utc 19723 840 + 45 * MS_PER_MINUTE
  /\ utc 19723 840 < utc 19723 885.
Proof.
  pose proof (@meeting_form_outcome ForgivingOffsets FixedJs.parseInt10 alicePending
                (Some alice) "alice" "2024-01-01" "2:00 PM" "45"
                (ConfirmMeeting (utc 19723 840) (utc 19723 885) 45)
                (<["alice" := {| md_calendarId := 1;
                                 md_startTime := Some (utc 19723 840);
                                 md_endTime := Some (utc 19723 885) |}]> alicePending))
    as Hout.
  destruct Hout as (Hparse & _ & Hend & Hlt & _).
  - vm_compute. reflexivity.
  - split; [exact Hparse|]. split; [exact Hend|exact Hlt].
Defined.

(** The same form with a duration of 200000000000 minutes: the end would lie
    past the last instant of a [Date]; the form is confirmed and alice's
    pending entry carries the start and a null end. *)
Lemma overlong_meeting_is_confirmed_without_end :
  @processMeetingDetailsForm ForgivingOffsets FixedJs.parseInt10 alicePending
    (Some alice) "alice" "2024-01-01" "2:00 PM" "200000000000"
  = (ConfirmMeetingNoEnd (utc 19723 840) 200000000000,
     <["alice" := {| md_calendarId := 1;
                     md_startTime := Some (utc 19723 840);
                     md_endTime := None |}]> alicePending).
Proof. vm_compute. reflexivity. Qed.

(** Witness of X14: the same meeting, confirmed on the empty Monday. *)
Lemma scheduled_meeting_closes_its_calendar_witness :
  @isTimeSlotAvailable FixedOffsets
    (addMeeting (booking 1 19723 840 885) emptyMonday) 1 (utc 19723 600) (utc 19723 630)
  = false.
Proof.
  destruct (@scheduled_meeting_closes_its_calendar FixedOffsets FixedJs.parseInt10
              emptyMonday alicePending (Some alice) "alice" "2024-01-01" "2:00 PM" "45"
              (utc 19723 840) (utc 19723 885) 45
              (<["alice" := {| md_calendarId := 1;
                               md_startTime := Some (utc 19723 840);
                               md_endTime := Some (utc 19723 885) |}]> alicePending)
              {| md_calendarId := 1; md_startTime := None; md_endTime := None |}
              (addMeeting (booking 1 19723 840 885) emptyMonday)
              (delete "alice"
                 (<["alice" := {| md_calendarId := 1;
                                  md_startTime := Some (utc 19723 840);
                                  md_endTime := Some (utc 19723 885) |}]> alicePending)))
    as (_ & _ & _ & _ & Hclosed).
  - vm_compute. reflexivity.
  - vm_compute. reflexivity.
  - reflexivity.
  - apply Hclosed. vm_compute. discriminate.
Defined.

(** Witness of X16: the two meetings of the work calendar, read as 10:00
    then 09:00, are listed as 09:00 then 10:00. *)
Lemma listed_meetings_are_the_earliest_upcoming_witness :
  exists hidden,
    StronglySorted byStart
      ([ {| lm_meeting := booking 1 19723 540 570; lm_calendarName := "Work" |};
         {| lm_meeting := booking 1 19723 600 660; lm_calendarName := "Work" |} ]
       ++ hidden).
Proof.
  destruct (listed_meetings_are_the_earliest_upcoming (fun s => s) workMeetings
              [workCalendar] None (utc 19723 0)
              [ {| lm_meeting := booking 1 19723 540 570; lm_calendarName := "Work" |};
                {| lm_meeting := booking 1 19723 600 660; lm_calendarName := "Work" |} ]
              2 false)
    as (filtered & allMeetings & hidden & _ & _ & _ & Hsorted & _).
  - vm_compute. reflexivity.
  - exists hidden. exact Hsorted.
Defined.

(** Witness of X17: the job at 09:40 reminds alice of the meeting at 10:00. *)
Lemma reminder_run_is_sound_witness :
  Forall2 sameButFlag reminderTable (markSent 7 reminderTable).
Proof.
  destruct (reminder_run_is_sound (fun _ => true) (fun _ => true) true
              (utc 19723 580) reminderTable
              [("alice", 7)] (markSent 7 reminderTable)) as (_ & Hrows & _).
  - vm_compute. reflexivity.
  - exact Hrows.
Defined.

(** Witness of X18: the job at 09:40 and again at 09:41. *)
Lemma no_meeting_is_reminded_twice_witness :
  NoDup (map snd [("alice", 7)]).
Proof.
  destruct (no_meeting_is_reminded_twice twoTicks reminderTable
              [("alice", 7)] (markSent 7 reminderTable)) as [Hnodup _].
  - apply (bool_decide_unpack (NoDup (map rm_id reminderTable))). vm_compute. exact I.
  - vm_compute. reflexivity.
  - exact Hnodup.
Defined.

(** Witness of X19: Monday 2024-01-01 in UTC, 09:30 to 10:00. *)
Lemma accepted_range_stays_on_one_day_witness :
  @localDate FixedOffsets "UTC" (utc 19723 600) = @localDate FixedOffsets "UTC" (utc 19723 570)
  /\ isWeekendDay (@localDay FixedOffsets "UTC" (utc 19723 600))
     = isWeekendDay (@localDay FixedOffsets "UTC" (utc 19723 570)).
Proof.
  apply (@accepted_range_stays_on_one_day FixedOffsets weekdaysOnly (Some "UTC") "UTC"
           (nineToFive false) "5:00 PM" 1020 (utc 19723 570) (utc 19723 600)).
  - vm_compute. reflexivity.
  - reflexivity.
  - reflexivity.
  - reflexivity.
  - reflexivity.
  - vm_compute. reflexivity.
  - vm_compute. discriminate.
  - intros a b Hab. unfold localWall. simpl. lia.
  - vm_compute. reflexivity.
Defined.

(** Witness of X20: the slot at 09:30 of the booked Monday. *)
Lemma returned_slots_keep_business_hours_witness :
  exists day k,
    19723 <= day <= 19723 /\ 1 <= k
    /\ slot_start (halfHour 19723 570) = @dayStartOf FixedOffsets day + k * stepMs
    /\ slot_end (halfHour 19723 570)
       = slot_start (halfHour 19723 570) + 30 * MS_PER_MINUTE
    /\ slot_end (halfHour 19723 570) <= @dayEndOf FixedOffsets day.
Proof.
  eapply (@returned_slots_keep_business_hours FixedOffsets bookedMonday ["alice"]
            19723 19723 30).
  - vm_compute. reflexivity.
  - vm_compute. left. reflexivity.
Defined.

(** Witness of X21: 09:30 to 10:30 is accepted on the Monday, so 09:45 to
    10:15 is. *)
Lemma inner_range_is_accepted_witness :
  @checkTimeAgainstAvailability FixedOffsets (utc 19723 585) (utc 19723 615)
    (Some weekdaysOnly) (Some "UTC") = true.
Proof.
  apply (@inner_range_is_accepted FixedOffsets (Some weekdaysOnly) (Some "UTC") "UTC"
           (utc 19723 570) (utc 19723 630)).
  - vm_compute. reflexivity.
  - reflexivity.
  - vm_compute. reflexivity.
  - vm_compute. discriminate.
  - vm_compute. discriminate.
Defined.

(** Witness of X22: the slot 10:30 to 11:00 and the booking 10:00 to 11:00
    share their end and overlap. *)
Lemma conflict_is_strict_overlap_witness :
  (meetingConflict (halfHour 19723 630) (booking 1 19723 600 660) = true
   <-> slot_start (halfHour 19723 630) < end_time (booking 1 19723 600 660)
       /\ start_time (booking 1 19723 600 660) < slot_end (halfHour 19723 630))
  /\ meetingConflict (halfHour 19723 630) (booking 1 19723 600 660)
     = meetingConflict
         {| slot_start := start_time (booking 1 19723 600 660);
            slot_end := end_time (booking 1 19723 600 660) |}
         {| calendar_id := calendar_id (booking 1 19723 600 660);
            start_time := slot_start (halfHour 19723 630);
            end_time := slot_end (halfHour 19723 630);
            status := status (booking 1 19723 600 660) |}.
Proof.
  apply (conflict_is_strict_overlap (halfHour 19723 630) (booking 1 19723 600 660)).
  - vm_compute. reflexivity.
  - vm_compute. reflexivity.
Defined.
